(** * Yaqith multi-agent safety system: the HTTP handlers of [main.py]

    A shallow embedding of the request handlers of [src/main.py]
    ([health_check], [analyze_text], [analyze_logo], [analyze_url],
    [analyze_all], [chat], [get_chat_history]) together with the two
    collaborators they call, the audit store ([app.db.repository]) and the
    fusion workflow ([app.graph.workflow]).  The code of the two
    collaborators is not in [src/]; they are modelled from the
    specification and marked as such.

    Python floats are modelled by the rationals they stand for ([Q]).  The
    arithmetic of the fusion rule is exact; the formatting of the risk score
    as a percentage rounds to doubles as Python does. *)

From Stdlib Require Import ZArith QArith Qabs Qround Qminmax Lqa String Ascii List
  DecimalString.
From stdpp Require Import gmap strings.

Local Open Scope string_scope.

(** ** Python values *)

(** The values found in a per-modality result dict. *)
Inductive pyval : Type :=
| PNone
| PBool (b : bool)
| PFloat (q : Q)
| PStr (s : string).

(** A Python [dict] with string keys. *)
Abbreviation pydict := (gmap string pyval).

(** [bool(s)] for a [str]. *)
Definition str_truthy (s : string) : bool :=
  match s with EmptyString => false | String _ _ => true end.

(** [bool(v)]. *)
Definition truthy (v : pyval) : bool :=
  match v with
  | PNone => false
  | PBool b => b
  | PFloat q => negb (Qeq_bool q 0%Q)
  | PStr s => str_truthy s
  end.

(** [bool(d)] for a dict: a dict is truthy exactly when it has a key. *)
Definition dict_truthy (d : pydict) : bool :=
  negb (bool_decide (d = ∅)).

(** [d.get(k)]: a missing key reads as [None]. *)
Definition dict_get (d : pydict) (k : string) : pyval :=
  default PNone (d !! k).

(** [d.get(k, dflt)]. *)
Definition dict_get_default (d : pydict) (k : string) (dflt : pyval) : pyval :=
  default dflt (d !! k).

(** [bool(x)] for an [Optional[dict]], as in [if result.get("text_result")]. *)
Definition opt_dict_truthy (o : option pydict) : bool :=
  match o with
  | Some d => dict_truthy d
  | None => false
  end.

(** [str(x)] for an [Optional[str]] inside an f-string. *)
Definition opt_str_format (o : option string) : string :=
  match o with
  | Some s => s
  | None => "None"
  end.

(** The newline character of the Python literal ["\n"]. *)
Definition nl : string := String (ascii_of_nat 10) EmptyString.

(** ** Exceptions and HTTP outcomes *)

(** The exceptions a handler body can raise.  The first three are the
    store's error taxonomy; [UnidentifiedImage] is what [Image.open] raises
    on bytes that are not an image; [ArgumentError] is what SQLAlchemy's
    [Session.execute] raises when it is given a plain string and refuses
    it. *)
Inductive exn : Type :=
| InvalidIdentity
| UnknownSession
| StorageUnavailable
| UnidentifiedImage
| ArgumentError.

(** [str(e)], the detail put in the HTTP 500 response. *)
Definition exn_str (e : exn) : string :=
  match e with
  | InvalidIdentity => "InvalidIdentity"
  | UnknownSession => "UnknownSession"
  | StorageUnavailable => "StorageUnavailable"
  | UnidentifiedImage => "cannot identify image file"
  | ArgumentError => "Textual SQL expression should be explicitly declared as text"
  end.

(** What the transport layer sends back: the response model, or the
    [HTTPException] raised by the handler. *)
Inductive http (A : Type) : Type :=
| Ok200 (body : A)
| HTTPException (status_code : Z) (detail : string).
Arguments Ok200 {A} body.
Arguments HTTPException {A} status_code detail.

(** ** The audit store *)

(** Modelled from the spec: the modality of a ScanRecord. *)
Inductive modality : Type := Text | Logo | Url.

#[global] Instance modality_eq_dec : EqDecision modality.
Proof. solve_decision. Defined.

(** Modelled from the spec: a Session, found under its identity in the
    store. *)
Record Session : Type := mkSession {
  created_at : nat;
  last_active_at : nat
}.

(** Modelled from the spec: a ScanRecord; the raw per-modality result is the
    dict that the handler passes. *)
Record ScanRecord : Type := mkScan {
  scan_session : string;
  scan_modality : modality;
  scan_input : string;
  scan_result : pydict;
  scan_created_at : nat
}.

(** Modelled from the spec: a PhishingAttempt; reason and confidence are
    the Python values that the handler passes. *)
Record PhishingAttempt : Type := mkAttempt {
  pa_session : string;
  pa_source : string;
  pa_content : string;
  pa_reason : pyval;
  pa_confidence : pyval;
  pa_created_at : nat
}.

(** Modelled from the spec: a ChatTurn, with the [id] that
    [get_chat_history] reads. *)
Record ChatTurn : Type := mkChat {
  chat_id : nat;
  chat_session : string;
  chat_user_message : string;
  chat_bot_response : string;
  chat_created_at : nat
}.

(** Modelled from the spec: the store behind a SQLAlchemy session.  [clock] is the logical time
    of the next write and stamps the records; [reachable t] tells whether
    the persistence layer answers at time [t] (an outage is a time at which
    it does not).  The three logs are kept oldest first.  [accepts_raw_sql]
    tells whether the [execute] method of the session takes a plain string
    as a statement, as SQLAlchemy 1.x does, or raises [ArgumentError] for
    it, as SQLAlchemy 2.x does; the repository pins no version. *)
Record Db : Type := mkDb {
  sessions : gmap string Session;
  scans : list ScanRecord;
  attempts : list PhishingAttempt;
  chats : list ChatTurn;
  clock : nat;
  reachable : nat -> bool;
  accepts_raw_sql : bool
}.

(** ** Handler bodies: state passing with exceptions *)

(** A computation over the database that returns a value or raises.  The
    database that comes back reflects every write committed before the
    raise. *)
Definition M (A : Type) : Type := Db -> (exn + A) * Db.

Definition ret {A} (a : A) : M A := fun db => (inr a, db).

Definition raise {A} (e : exn) : M A := fun db => (inl e, db).

Definition bind {A B} (m : M A) (k : A -> M B) : M B :=
  fun db =>
    match m db with
    | (inr a, db') => k a db'
    | (inl e, db') => (inl e, db')
    end.

Declare Scope handler_scope.
Delimit Scope handler_scope with handler.
Notation "'let*' x ':=' m 'in' k" := (bind m (fun x => k))
  (at level 10, x pattern, m at level 100, k at level 200) : handler_scope.
Notation "m ';;;' k" := (bind m (fun _ => k))
  (at level 100, k at level 200, right associativity) : handler_scope.

(** [if c: body] for a body that returns nothing. *)
Definition when (c : bool) (body : M unit) : M unit :=
  if c then body else ret tt.

(** [try: body  except Exception as e: raise HTTPException(500, str(e))]. *)
Definition try_except {A} (body : M A) (db : Db) : http A * Db :=
  match body db with
  | (inr a, db') => (Ok200 a, db')
  | (inl e, db') => (HTTPException 500 (exn_str e), db')
  end.

Local Open Scope handler_scope.

(** Modelled from the spec: the four writes of the store
    ([app/db/repository.py], missing) as functions on the database.  Each
    stamps what it writes with the clock and advances it. *)
Definition touch_session (id : string) (db : Db) : Db :=
  let now := clock db in
  let s := match sessions db !! id with
           | Some s => mkSession (created_at s) now
           | None => mkSession now now
           end in
  mkDb (<[id := s]> (sessions db)) (scans db) (attempts db) (chats db)
       (S now) (reachable db) (accepts_raw_sql db).

Definition add_scan (session_id : string) (m : modality) (input_ref : string)
    (result : pydict) (db : Db) : Db :=
  mkDb (sessions db)
       (scans db ++ [mkScan session_id m input_ref result (clock db)])
       (attempts db) (chats db) (S (clock db)) (reachable db)
       (accepts_raw_sql db).

Definition add_attempt (session_id source content : string)
    (reason confidence : pyval) (db : Db) : Db :=
  mkDb (sessions db) (scans db)
       (attempts db ++
          [mkAttempt session_id source content reason confidence (clock db)])
       (chats db) (S (clock db)) (reachable db) (accepts_raw_sql db).

Definition add_chat (session_id user_message bot_response : string) (db : Db)
    : Db :=
  mkDb (sessions db) (scans db) (attempts db)
       (chats db ++
          [mkChat (S (length (chats db))) session_id user_message bot_response
                  (clock db)])
       (S (clock db)) (reachable db) (accepts_raw_sql db).

(** Modelled from the spec: [ensure_session(id)] of the Session & Audit
    Store, whose code ([app/db/repository.py]) is missing.  An idempotent
    upsert: the first reference creates the Session, a later one only
    refreshes [last_active_at]; it fails with [InvalidIdentity] for an empty
    id and never errors for a non-empty one. *)
Definition ensure_session (id : string) : M unit :=
  fun db =>
    if str_truthy id then (inr tt, touch_session id db)
    else (inl InvalidIdentity, db).

(** Modelled from the spec: [record_scan(session_id, modality, input_ref,
    result)], missing with the repository.  Appends a ScanRecord; fails with
    [UnknownSession] if the session does not exist and with
    [StorageUnavailable] on a persistence-layer outage. *)
Definition record_scan (session_id : string) (m : modality)
    (input_ref : string) (result : pydict) : M unit :=
  fun db =>
    match sessions db !! session_id with
    | None => (inl UnknownSession, db)
    | Some _ =>
        if reachable db (clock db)
        then (inr tt, add_scan session_id m input_ref result db)
        else (inl StorageUnavailable, db)
    end.

(** Modelled from the spec: [record_phishing_attempt(session_id, source,
    content, reason, confidence)], missing with the repository.  Appends a
    PhishingAttempt; always succeeds if the session exists; never
    deduplicates. *)
Definition record_phishing_attempt (session_id source content : string)
    (reason confidence : pyval) : M unit :=
  fun db =>
    match sessions db !! session_id with
    | None => (inl UnknownSession, db)
    | Some _ =>
        (inr tt, add_attempt session_id source content reason confidence db)
    end.

(** Modelled from the spec: [record_chat_turn(session_id, user_message,
    bot_response)], missing with the repository.  Appends a ChatTurn; like
    every record operation it needs the session to exist. *)
Definition record_chat_turn (session_id user_message bot_response : string)
    : M unit :=
  fun db =>
    match sessions db !! session_id with
    | None => (inl UnknownSession, db)
    | Some _ => (inr tt, add_chat session_id user_message bot_response db)
    end.

(** Modelled from the spec: the optional session filter of
    [query_chat_history]. *)
Definition turn_matches (session_id : option string) (t : ChatTurn) : bool :=
  match session_id with
  | Some id => bool_decide (chat_session t = id)
  | None => true
  end.

(** Modelled from the spec: [query_chat_history(session_id: optional,
    limit)], missing with the repository.  Returns up to [limit] ChatTurns
    ordered most-recent-first, optionally filtered to one session; an empty
    sequence, not an error, when none exist.  [limit] is a Python [int]; a
    limit below zero selects nothing. *)
Definition query_chat_history (session_id : option string) (limit : Z)
    : M (list ChatTurn) :=
  fun db =>
    (inr (take (Z.to_nat limit)
               (rev (List.filter (turn_matches session_id) (chats db)))), db).

(** [db.execute("SELECT 1")], the liveness probe of [health_check].  The
    statement is passed as a plain string: a session that refuses plain
    strings raises [ArgumentError] before it reaches the store, whatever the
    state of the store; otherwise the trivial read raises when the
    persistence layer is unreachable. *)
Definition db_execute_select_1 : M unit :=
  fun db =>
    if accepts_raw_sql db then
      if reachable db (clock db) then (inr tt, db)
      else (inl StorageUnavailable, db)
    else (inl ArgumentError, db).

(** The methods of the [Repository] class ([app/db/repository.py]), each
    one the store operation of the same purpose. *)
Module Repository.

(** Modelled from the spec: [Repository.create_or_update_session]
    (missing), the store's [ensure_session]. *)
Definition create_or_update_session (session_id : string) : M unit :=
  ensure_session session_id.

(** Modelled from the spec: [Repository.save_text_scan] (missing),
    [record_scan] for the text modality, with the text as input
    reference. *)
Definition save_text_scan (session_id text : string) (result : pydict)
    : M unit :=
  record_scan session_id Text text result.

(** Modelled from the spec: [Repository.save_logo_scan] (missing),
    [record_scan] for the logo modality, with the image's filename as input
    reference. *)
Definition save_logo_scan (session_id filename : string) (result : pydict)
    : M unit :=
  record_scan session_id Logo filename result.

(** Modelled from the spec: [Repository.save_url_scan] (missing),
    [record_scan] for the url modality, with the URL as input reference. *)
Definition save_url_scan (session_id url : string) (result : pydict)
    : M unit :=
  record_scan session_id Url url result.

(** Modelled from the spec: [Repository.save_phishing_attempt] (missing),
    the store's [record_phishing_attempt]. *)
Definition save_phishing_attempt (session_id source content : string)
    (reason confidence : pyval) : M unit :=
  record_phishing_attempt session_id source content reason confidence.

(** Modelled from the spec: [Repository.save_message] (missing), the
    store's [record_chat_turn]. *)
Definition save_message (session_id user_message bot_response : string)
    : M unit :=
  record_chat_turn session_id user_message bot_response.

(** Modelled from the spec: [Repository.get_chat_history] (missing), the
    store's [query_chat_history]. *)
Definition get_chat_history (session_id : option string) (limit : Z)
    : M (list ChatTurn) :=
  query_chat_history session_id limit.

End Repository.

(** ** The workflow *)

(** A decoded image, as [Image.open] returns it. *)
Inductive Image : Type := Bitmap (pixels : list N).

(** The [model] attribute of an agent, as [health_check] inspects it with
    [hasattr(agent, 'model') and agent.model is not None]. *)
Inductive model_attr : Type :=
| NoAttribute
| ModelNone
| ModelLoaded.

Record Agent : Type := mkAgent {
  model : model_attr
}.

(** The dict returned by [workflow.analyze_sync].  Its keys are fixed; a
    field is [None] when the key is missing, and for the three per-modality
    results also when the key holds [None], which the handlers (reading them
    with [result.get(key)]) do not tell apart. *)
Record WorkflowResult : Type := mkResult {
  logo_result : option pydict;
  text_result : option pydict;
  url_result : option pydict;
  final_decision : option string;
  risk_score : option Q;
  explanation : option string
}.

(** The global [workflow] instance: the three agents and the
    [analyze_sync(text=, url=, image=, session_id=)] method.  The call is
    taken to return, since no classifier failure is to fail a request, and
    its result to have the shape of [WorkflowResult]; a call that raises and
    a result with values of other types are outside this model, and so are
    the errors they would cause further down a handler. *)
Record MultiAgentWorkflow : Type := mkWorkflow {
  logo_agent : Agent;
  text_agent : Agent;
  url_agent : Agent;
  analyze_sync :
    option string -> option string -> option Image -> string -> WorkflowResult
}.

(** *** The fusion workflow, from the specification *)

(** Modelled from the spec: the [ModalityResult] of the Classifier Adapter
    contract, [{triggered: bool, confidence: float in [0,1], reason:
    string}]; the adapters themselves are external. *)
Record ModalityResult : Type := mkModalityResult {
  triggered : bool;
  confidence : Q;
  reason : string
}.

(** Modelled from the spec: the three Classifier Adapters,
    [classify(input) -> ModalityResult] or the failure
    [ClassifierUnavailable] (here [None]). *)
Record Adapters : Type := mkAdapters {
  classify_text : string -> option ModalityResult;
  classify_logo : Image -> option ModalityResult;
  classify_url : string -> option ModalityResult
}.

(** Modelled from the spec: the Dispatcher's output, a mapping from modality
    to [ModalityResult] with 0 to 3 entries; unavailable or absent modalities
    are missing keys. *)
Record Mapping : Type := mkMapping {
  m_text : option ModalityResult;
  m_logo : option ModalityResult;
  m_url : option ModalityResult
}.

(** Modelled from the spec: the Modality Dispatcher ([app/graph/workflow.py],
    missing).  Each present input whose adapter answers is classified; absent
    inputs are skipped. *)
Definition dispatch (ad : Adapters) (text url : option string)
    (image : option Image) : Mapping :=
  {| m_text := text ≫= classify_text ad;
     m_logo := image ≫= classify_logo ad;
     m_url := url ≫= classify_url ad |}.

(** Modelled from the spec: the entries of a mapping in the fixed modality
    priority order: text, then logo, then url. *)
Definition entries (m : Mapping) : list ModalityResult :=
  omap id [m_text m; m_logo m; m_url m].

(** Modelled from the spec: confidence values outside [0,1] are clamped
    before use. *)
Definition clamp01 (q : Q) : Q :=
  (if Qle_bool q 0 then 0 else if Qle_bool 1 q then 1 else q)%Q.

(** Modelled from the spec: the contribution of a present modality,
    [c_i = triggered_i ? confidence_i : 0]. *)
Definition contribution (r : ModalityResult) : Q :=
  if triggered r then clamp01 (confidence r) else 0%Q.

(** Modelled from the spec: the noisy-OR rule [1 - Π(1 - c_i)]. *)
Definition noisy_or (cs : list Q) : Q :=
  (1 - fold_right (fun c p => (1 - c) * p) 1 cs)%Q.

(** Modelled from the spec: the threshold below which the decision is
    safe. *)
Definition SUSPICIOUS_THRESHOLD : Q := (3 # 10)%Q.
(** Modelled from the spec: the threshold from which the decision is
    dangerous. *)
Definition DANGEROUS_THRESHOLD : Q := (7 # 10)%Q.

(** [a < b] on rationals, as a boolean. *)
Definition Qlt_bool (a b : Q) : bool := negb (Qle_bool b a).

(** Modelled from the spec: [risk_score < 0.3 → safe];
    [0.3 ≤ risk_score < 0.7 → suspicious]; [risk_score ≥ 0.7 → dangerous]. *)
Definition decision_of (risk : Q) : string :=
  if Qlt_bool risk SUSPICIOUS_THRESHOLD then "safe"
  else if Qlt_bool risk DANGEROUS_THRESHOLD then "suspicious"
  else "dangerous".

(** Modelled from the spec: the explanation, the reasons of the triggered
    modalities appended in priority order, or a fixed string if none
    triggered.  The spec names no separator; none is inserted. *)
Definition explain (rs : list ModalityResult) : string :=
  match List.filter triggered rs with
  | [] => "No suspicious indicators detected across analyzed modalities."
  | ts => String.concat "" (map reason ts)
  end.

(** Modelled from the spec: the Fusion Engine ([app/graph/workflow.py],
    missing): [(risk_score, decision, explanation)] of a mapping. *)
Definition fuse (m : Mapping) : Q * string * string :=
  match entries m with
  | [] => (0%Q, "unknown", "No input provided for analysis.")
  | rs => let risk := noisy_or (map contribution rs) in
          (risk, decision_of risk, explain rs)
  end.

(** Modelled from the spec: the native shape of a per-modality result; each
    modality has its own flag name ([is_fraud], [is_suspicious], and [safe],
    which is the negation of triggered), as the handlers read them. *)
Definition native (md : modality) (r : ModalityResult) : pydict :=
  let flag := match md with
              | Text => ("is_fraud", PBool (triggered r))
              | Logo => ("is_suspicious", PBool (triggered r))
              | Url => ("safe", PBool (negb (triggered r)))
              end in
  <[flag.1 := flag.2]>
    (<["confidence" := PFloat (confidence r)]>
       (<["reason" := PStr (reason r)]> ∅)).

(** Modelled from the spec: [analyze_sync], dispatch followed by fusion. *)
Definition spec_analyze_sync (ad : Adapters) (text url : option string)
    (image : option Image) (session_id : string) : WorkflowResult :=
  let m := dispatch ad text url image in
  let '(risk, decision, expl) := fuse m in
  {| logo_result := native Logo <$> m_logo m;
     text_result := native Text <$> m_text m;
     url_result := native Url <$> m_url m;
     final_decision := Some decision;
     risk_score := Some risk;
     explanation := Some expl |}.

(** Modelled from the spec: a workflow whose [analyze_sync] is the one
    above. *)
Definition spec_workflow (ad : Adapters) (logo text url : Agent)
    : MultiAgentWorkflow :=
  mkWorkflow logo text url (spec_analyze_sync ad).

(** ** Requests and responses ([app.schemas]) *)

Record TextAnalysisRequest : Type := mkTextRequest {
  treq_text : string;
  treq_session_id : string
}.

Record UrlAnalysisRequest : Type := mkUrlRequest {
  ureq_url : string;
  ureq_session_id : string
}.

(** An uploaded file.  [decoded] is what [Image.open(io.BytesIO(contents))]
    makes of its bytes: the image, or [None] when it raises. *)
Record UploadFile : Type := mkUpload {
  filename : string;
  decoded : option Image
}.

Record AnalysisResponse : Type := mkAnalysisResponse {
  resp_logo_result : option pydict;
  resp_text_result : option pydict;
  resp_url_result : option pydict;
  resp_final_decision : string;
  resp_risk_score : Q;
  resp_explanation : string;
  resp_session_id : string
}.

Record ChatResponse : Type := mkChatResponse {
  cresp_message : string;
  cresp_analysis : AnalysisResponse;
  cresp_session_id : string
}.

(** One entry of the [history] list of a [ChatHistoryResponse]. *)
Record HistoryItem : Type := mkHistoryItem {
  item_id : nat;
  item_user_message : string;
  item_bot_response : string;
  item_created_at : nat
}.

Record ChatHistoryResponse : Type := mkChatHistoryResponse {
  history : list HistoryItem;
  total : nat
}.

Record HealthResponse : Type := mkHealthResponse {
  status : string;
  models_loaded : gmap string bool;
  database_connected : bool
}.

(** ** Helpers for the Python idioms of the handlers *)

(** [Image.open(io.BytesIO(await file.read()))]. *)
Definition Image_open (file : UploadFile) : M Image :=
  match decoded file with
  | Some image => ret image
  | None => raise UnidentifiedImage
  end.

(** [image = None; if file: image = Image.open(...)].  An [UploadFile]
    object is always truthy. *)
Definition prepare_image (file : option UploadFile) : M (option Image) :=
  match file with
  | Some f => let* image := Image_open f in ret (Some image)
  | None => ret None
  end.

(** [if result.get(key) and c: body(result[key])]. *)
Definition if_result (o : option pydict) (c : bool) (body : pydict -> M unit)
    : M unit :=
  match o with
  | Some d => when (dict_truthy d && c) (body d)
  | None => ret tt
  end.

(** [if result.get(key) and x: body(x, result[key])] for an optional input
    [x] ([None] is falsy; [c] is the truth value of a present [x]). *)
Definition if_result_and {I} (o : option pydict) (x : option I)
    (c : I -> bool) (body : I -> pydict -> M unit) : M unit :=
  match x with
  | Some i => if_result o (c i) (body i)
  | None => ret tt
  end.

(** [x in ["suspicious", "dangerous"]] for [x = result.get("final_decision")]. *)
Definition in_suspicious_dangerous (x : option string) : bool :=
  match x with
  | Some d => String.eqb d "suspicious" || String.eqb d "dangerous"
  | None => false
  end.

(** Rounding to the nearest integer, ties to even, as Python's float
    formatting rounds. *)
Definition round_half_even (q : Q) : Z :=
  let f := Qfloor q in
  match (2 * (q - inject_Z f) ?= 1)%Q with
  | Lt => f
  | Gt => (f + 1)%Z
  | Eq => if Z.even f then f else (f + 1)%Z
  end.

(** [2 ^ k] as a rational, for any integer [k]. *)
Definition Qpow2 (k : Z) : Q :=
  if (0 <=? k)%Z then inject_Z (2 ^ k) else (1 # Z.to_pos (2 ^ (- k)))%Q.

(** The integer [k] with [2 ^ k <= q < 2 ^ (k + 1)], for a positive [q]. *)
Definition floor_log2 (q : Q) : Z :=
  if Qle_bool 1 q then Z.log2 (Qfloor q)
  else (- Z.log2_up (Qceiling (/ q)))%Z.

(** The double (IEEE 754 binary64) nearest to a rational that is not
    negative, ties to even: a multiple of [2 ^ e] with at most 53
    significant bits, where [e] is never below -1074 (subnormal numbers).
    From [2 ^ 1024] on the result stands for infinity. *)
Definition binary64 (q : Q) : Q :=
  if Qle_bool q 0 then 0%Q
  else
    let e := Z.max (floor_log2 q - 52) (-1074) in
    (inject_Z (round_half_even (q * Qpow2 (- e))) * Qpow2 e)%Q.

(** [f"{x:.0%}"] for a float [x], given by the rational it stands for.
    Python multiplies the float by 100, which rounds the product to a
    double, and prints that double with no decimals, rounded half to even,
    followed by a percent sign; an infinite product prints as [inf]. *)
Definition format_percent (x : Q) : string :=
  let val := binary64 (binary64 (Qabs x) * 100) in
  (if Qlt_bool x 0 then "-" else "") +:+
  (if Qle_bool (Qpow2 1024) val then "inf"
   else NilZero.string_of_int (Z.to_int (round_half_even val))) +:+ "%".

(** ** The handlers of [main.py] *)

(** [GET /health]. *)
Definition health_check (workflow : MultiAgentWorkflow) (db : Db)
    : HealthResponse :=
  let loaded (a : Agent) : bool :=
    match model a with
    | ModelLoaded => true
    | ModelNone | NoAttribute => false
    end in
  let models_loaded : gmap string bool :=
    <["logo_agent" := loaded (logo_agent workflow)]>
      (<["text_agent" := loaded (text_agent workflow)]>
         (<["url_agent" := loaded (url_agent workflow)]> ∅)) in
  let db_connected :=
    match db_execute_select_1 db with
    | (inr _, _) => true
    | (inl _, _) => false
    end in
  let all_loaded := bool_decide (map_Forall (fun _ b => b = true) models_loaded) in
  let status :=
    if all_loaded && db_connected then "healthy"
    else if db_connected then "degraded_fallback"
    else "degraded" in
  mkHealthResponse status models_loaded db_connected.

(** The body of [POST /analyze/text], inside its [try]. *)
Definition analyze_text_body (workflow : MultiAgentWorkflow)
    (request : TextAnalysisRequest) : M AnalysisResponse :=
  let session_id := treq_session_id request in
  let text := treq_text request in
  Repository.create_or_update_session session_id ;;;
  let result := analyze_sync workflow (Some text) None None session_id in
  if_result (text_result result) true (fun text_result =>
    Repository.save_text_scan session_id text text_result ;;;
    when (truthy (dict_get text_result "is_fraud"))
      (Repository.save_phishing_attempt session_id "text" text
         (dict_get_default text_result "reason" (PStr "Fraudulent text detected"))
         (dict_get_default text_result "confidence" (PFloat 0)))) ;;;
  ret {| resp_logo_result := None;
         resp_text_result := text_result result;
         resp_url_result := None;
         resp_final_decision := default "unknown" (final_decision result);
         resp_risk_score := default 0%Q (risk_score result);
         resp_explanation := default "" (explanation result);
         resp_session_id := session_id |}.

Definition analyze_text (workflow : MultiAgentWorkflow)
    (request : TextAnalysisRequest) : Db -> http AnalysisResponse * Db :=
  try_except (analyze_text_body workflow request).

(** The body of [POST /analyze/logo]. *)
Definition analyze_logo_body (workflow : MultiAgentWorkflow)
    (file : UploadFile) (session_id : string) : M AnalysisResponse :=
  Repository.create_or_update_session session_id ;;;
  let* image := Image_open file in
  let result := analyze_sync workflow None None (Some image) session_id in
  if_result (logo_result result) true (fun logo_result =>
    Repository.save_logo_scan session_id (filename file) logo_result ;;;
    when (truthy (dict_get logo_result "is_suspicious"))
      (Repository.save_phishing_attempt session_id "logo" (filename file)
         (dict_get_default logo_result "reason" (PStr "Suspicious logo detected"))
         (dict_get_default logo_result "confidence" (PFloat 0)))) ;;;
  ret {| resp_logo_result := logo_result result;
         resp_text_result := None;
         resp_url_result := None;
         resp_final_decision := default "unknown" (final_decision result);
         resp_risk_score := default 0%Q (risk_score result);
         resp_explanation := default "" (explanation result);
         resp_session_id := session_id |}.

Definition analyze_logo (workflow : MultiAgentWorkflow)
    (file : UploadFile) (session_id : string)
    : Db -> http AnalysisResponse * Db :=
  try_except (analyze_logo_body workflow file session_id).

(** The body of [POST /analyze/url]. *)
Definition analyze_url_body (workflow : MultiAgentWorkflow)
    (request : UrlAnalysisRequest) : M AnalysisResponse :=
  let session_id := ureq_session_id request in
  let url := ureq_url request in
  Repository.create_or_update_session session_id ;;;
  let result := analyze_sync workflow None (Some url) None session_id in
  if_result (url_result result) true (fun url_result =>
    Repository.save_url_scan session_id url url_result ;;;
    when (negb (truthy (dict_get url_result "safe")))
      (Repository.save_phishing_attempt session_id "url" url
         (dict_get_default url_result "reason" (PStr "Malicious URL detected"))
         (dict_get_default url_result "confidence" (PFloat 0)))) ;;;
  ret {| resp_logo_result := None;
         resp_text_result := None;
         resp_url_result := url_result result;
         resp_final_decision := default "unknown" (final_decision result);
         resp_risk_score := default 0%Q (risk_score result);
         resp_explanation := default "" (explanation result);
         resp_session_id := session_id |}.

Definition analyze_url (workflow : MultiAgentWorkflow)
    (request : UrlAnalysisRequest) : Db -> http AnalysisResponse * Db :=
  try_except (analyze_url_body workflow request).

(** The body of [POST /analyze/all]. *)
Definition analyze_all_body (workflow : MultiAgentWorkflow)
    (text url : option string) (file : option UploadFile)
    (session_id : string) : M AnalysisResponse :=
  Repository.create_or_update_session session_id ;;;
  let* image := prepare_image file in
  let result := analyze_sync workflow text url image session_id in
  if_result_and (logo_result result) file (fun _ => true)
    (fun file => Repository.save_logo_scan session_id (filename file)) ;;;
  if_result_and (text_result result) text str_truthy
    (fun text => Repository.save_text_scan session_id text) ;;;
  if_result_and (url_result result) url str_truthy
    (fun url => Repository.save_url_scan session_id url) ;;;
  when (in_suspicious_dangerous (final_decision result))
    (let content :=
       "Text: " +:+ opt_str_format text +:+ ", URL: " +:+ opt_str_format url
       +:+ ", Image: " +:+ match file with
                           | Some f => filename f
                           | None => "None"
                           end in
     Repository.save_phishing_attempt session_id "combined" content
       (PStr (default "Multiple indicators detected" (explanation result)))
       (PFloat (default 0%Q (risk_score result)))) ;;;
  ret {| resp_logo_result := logo_result result;
         resp_text_result := text_result result;
         resp_url_result := url_result result;
         resp_final_decision := default "unknown" (final_decision result);
         resp_risk_score := default 0%Q (risk_score result);
         resp_explanation := default "" (explanation result);
         resp_session_id := session_id |}.

Definition analyze_all (workflow : MultiAgentWorkflow)
    (text url : option string) (file : option UploadFile)
    (session_id : string) : Db -> http AnalysisResponse * Db :=
  try_except (analyze_all_body workflow text url file session_id).

(** The three prose templates of [chat], up to the explanation. *)
Definition SAFE_PROSE : string :=
  "✅ Everything looks good! Your message appears to be safe.".
Definition SUSPICIOUS_PROSE : string :=
  "⚠️ I've detected some concerning indicators. Please be cautious.".
Definition DANGEROUS_PROSE : string :=
  "🚨 Warning! This appears to be a phishing or fraud attempt. Do not proceed!".

(** The [if decision == "safe": ... elif decision == "suspicious": ...
    else: ...] chain of [chat], followed by the appended risk score. *)
Definition compose_bot_message (decision : string) (risk_score : Q)
    (explanation : string) : string :=
  let bot_message :=
    if String.eqb decision "safe" then
      SAFE_PROSE +:+ nl +:+ nl +:+ explanation
    else if String.eqb decision "suspicious" then
      SUSPICIOUS_PROSE +:+ nl +:+ nl +:+ explanation
    else
      DANGEROUS_PROSE +:+ nl +:+ nl +:+ explanation in
  bot_message +:+ nl +:+ nl +:+ "Risk Score: " +:+ format_percent risk_score.

(** The body of [POST /chat]. *)
Definition chat_body (workflow : MultiAgentWorkflow) (message : string)
    (url : option string) (file : option UploadFile) (session_id : string)
    : M ChatResponse :=
  Repository.create_or_update_session session_id ;;;
  let* image := prepare_image file in
  let result := analyze_sync workflow (Some message) url image session_id in
  let decision := default "unknown" (final_decision result) in
  let risk_score := default 0%Q (risk_score result) in
  let explanation := default "" (explanation result) in
  let bot_message := compose_bot_message decision risk_score explanation in
  Repository.save_message session_id message bot_message ;;;
  if_result_and (logo_result result) file (fun _ => true)
    (fun file => Repository.save_logo_scan session_id (filename file)) ;;;
  if_result (text_result result) true
    (Repository.save_text_scan session_id message) ;;;
  if_result_and (url_result result) url str_truthy
    (fun url => Repository.save_url_scan session_id url) ;;;
  ret {| cresp_message := bot_message;
         cresp_analysis :=
           {| resp_logo_result := logo_result result;
              resp_text_result := text_result result;
              resp_url_result := url_result result;
              resp_final_decision := decision;
              resp_risk_score := risk_score;
              resp_explanation := explanation;
              resp_session_id := session_id |};
         cresp_session_id := session_id |}.

Definition chat (workflow : MultiAgentWorkflow) (message : string)
    (url : option string) (file : option UploadFile) (session_id : string)
    : Db -> http ChatResponse * Db :=
  try_except (chat_body workflow message url file session_id).

(** The body of [GET /chat/history]. *)
Definition get_chat_history_body (session_id : option string) (limit : Z)
    : M ChatHistoryResponse :=
  let* history := Repository.get_chat_history session_id limit in
  ret {| history :=
           map (fun item =>
                  {| item_id := chat_id item;
                     item_user_message := chat_user_message item;
                     item_bot_response := chat_bot_response item;
                     item_created_at := chat_created_at item |})
               history;
         total := length history |}.

Definition get_chat_history (session_id : option string) (limit : Z)
    : Db -> http ChatHistoryResponse * Db :=
  try_except (get_chat_history_body session_id limit).

(** * Vocabulary of the statements *)

(** [on_return m db Q]: if [m], run on [db], returns (raises nothing), then
    [Q] holds of the value and the database it leaves. *)
Definition on_return {A} (m : M A) (db : Db) (Q : A -> Db -> Prop) : Prop :=
  forall a db', m db = (inr a, db') -> Q a db'.

(** An agent's model is loaded when the attribute exists and is not
    [None]. *)
Definition model_loaded (a : Agent) : Prop := model a = ModelLoaded.

Definition all_models_loaded (workflow : MultiAgentWorkflow) : Prop :=
  model_loaded (logo_agent workflow) /\
  model_loaded (text_agent workflow) /\
  model_loaded (url_agent workflow).

(** The liveness probe of [health_check] succeeds. *)
Definition store_reachable (db : Db) : Prop :=
  (db_execute_select_1 db).1 = inr tt.

(** The persistence layer answers at the time of the call. *)
Definition store_up (db : Db) : Prop := reachable db (clock db) = true.

(** The chat turns of the store that match the optional session filter. *)
Definition matching_turns (session_id : option string) (db : Db)
    : list ChatTurn :=
  List.filter (turn_matches session_id) (chats db).

(** The PhishingAttempts written between two states of the store. *)
Definition new_attempts (db db' : Db) : list PhishingAttempt :=
  drop (length (attempts db)) (attempts db').

(** The ScanRecords written between two states of the store. *)
Definition new_scans (db db' : Db) : list ScanRecord :=
  drop (length (scans db)) (scans db').

(** The fused decision escalates past the safe threshold. *)
Definition escalated (decision : string) : bool :=
  String.eqb decision "suspicious" || String.eqb decision "dangerous".

(** The product of a list of rationals. *)
Definition Qprod (l : list Q) : Q := fold_right Qmult 1%Q l.

(** The contribution of a modality as the fusion rule states it:
    [confidence_i] if the modality triggered and 0 otherwise. *)
Definition stated_contribution (r : ModalityResult) : Q :=
  if triggered r then confidence r else 0%Q.

(** The adapter contract: every confidence of the mapping lies in [0,1]. *)
Definition confidences_in_range (m : Mapping) : Prop :=
  Forall (fun r => (0 <= confidence r <= 1)%Q) (entries m).

(** The response carries the noisy-OR risk score of the mapping and the
    decision that the fixed thresholds give it. *)
Definition fused_by_noisy_or (m : Mapping) (resp : AnalysisResponse) : Prop :=
  let risk := resp_risk_score resp in
  (risk == 1 - Qprod (map (fun r => 1 - stated_contribution r) (entries m)))%Q /\
  ((risk < 3 # 10)%Q -> resp_final_decision resp = "safe") /\
  ((3 # 10 <= risk)%Q -> (risk < 7 # 10)%Q ->
   resp_final_decision resp = "suspicious") /\
  ((7 # 10 <= risk)%Q -> resp_final_decision resp = "dangerous").

(** The part of an [AnalysisResponse] that every analyze handler copies
    from the workflow's result. *)
Definition copies_fusion (result : WorkflowResult) (resp : AnalysisResponse)
    : Prop :=
  resp_final_decision resp = default "unknown" (final_decision result) /\
  resp_risk_score resp = default 0%Q (risk_score result) /\
  resp_explanation resp = default "" (explanation result).

(** The flag by which a single-modality handler reads its own result:
    [is_fraud] for text, [is_suspicious] for a logo, and a [safe] that is
    not truthy for a URL. *)
Definition flag_raised (md : modality) (d : pydict) : bool :=
  match md with
  | Text => truthy (dict_get d "is_fraud")
  | Logo => truthy (dict_get d "is_suspicious")
  | Url => negb (truthy (dict_get d "safe"))
  end.

(** The modality's result is there (a dict with at least one key) and
    raises its flag. *)
Definition modality_alarm (md : modality) (o : option pydict) : bool :=
  match o with
  | Some d => dict_truthy d && flag_raised md d
  | None => false
  end.

(** The PhishingAttempts a single-modality handler is expected to write at
    time [t]: one record built from the modality's result when it raises its
    flag, none otherwise. *)
Definition expected_attempts (md : modality)
    (source default_reason session_id content : string) (o : option pydict)
    (t : nat) : list PhishingAttempt :=
  match o with
  | Some d =>
      if dict_truthy d && flag_raised md d
      then [mkAttempt session_id source content
              (dict_get_default d "reason" (PStr default_reason))
              (dict_get_default d "confidence" (PFloat 0)) t]
      else []
  | None => []
  end.

(** The store knows the session and has no outage ahead. *)
Definition store_ready (session_id : string) (db : Db) : Prop :=
  is_Some (sessions db !! session_id) /\ forall t, reachable db t = true.

(** [m] returns, and keeps the store ready, whenever it starts from a ready
    store. *)
Definition returns_ready {A} (session_id : string) (m : M A) : Prop :=
  forall db, store_ready session_id db ->
             exists a db', m db = (inr a, db') /\ store_ready session_id db'.

(** * Sample data *)

(** A store with nothing in it and no outage, behind a session that takes
    plain strings. *)
Definition empty_db : Db := mkDb ∅ [] [] [] 0 (fun _ => true) true.

(** The same store, with an outage at time 1, right after the first write. *)
Definition outage_db : Db :=
  mkDb ∅ [] [] [] 0 (fun t => negb (t =? 1)%nat) true.

Definition loaded_agent : Agent := mkAgent ModelLoaded.

(** Adapters that answer every input with the same result per modality. *)
Definition constant_adapters (text logo url : option ModalityResult)
    : Adapters :=
  mkAdapters (fun _ => text) (fun _ => logo) (fun _ => url).

Definition sample_workflow (text logo url : option ModalityResult)
    : MultiAgentWorkflow :=
  spec_workflow (constant_adapters text logo url)
    loaded_agent loaded_agent loaded_agent.

Definition benign : ModalityResult :=
  mkModalityResult false (1 # 10) "nothing unusual".

(** Scenario A: the text classifier triggers with confidence 0.9. *)
Definition scenario_A_workflow : MultiAgentWorkflow :=
  sample_workflow (Some (mkModalityResult true (9 # 10) "asks for a password"))
    (Some benign) (Some benign).

(** Scenario B: text triggers with confidence 0.4, url with 0.5. *)
Definition scenario_B_workflow : MultiAgentWorkflow :=
  sample_workflow (Some (mkModalityResult true (4 # 10) "asks for a password"))
    None (Some (mkModalityResult true (5 # 10) "lookalike domain")).

(** The text classifier triggers, with the low confidence 0.1. *)
Definition low_confidence_workflow : MultiAgentWorkflow :=
  sample_workflow (Some (mkModalityResult true (1 # 10) "mentions a prize"))
    (Some benign) (Some benign).

(** No classifier is available. *)
Definition unavailable_workflow : MultiAgentWorkflow :=
  sample_workflow None None None.

(** The body of an [Ok200] outcome, and a default otherwise. *)
Definition body_or {A} (dflt : A) (r : http A) : A :=
  match r with
  | Ok200 a => a
  | HTTPException _ _ => dflt
  end.

Definition no_response : AnalysisResponse :=
  mkAnalysisResponse None None None "" 0 "" "".

(** Scenario B as a call of [analyze_all]: a text and a URL, no image. *)
Definition scenario_B_run : http AnalysisResponse * Db :=
  analyze_all scenario_B_workflow (Some "Your account is locked")
    (Some "http://examp1e.test/login") None "s1" empty_db.

Definition scenario_B_mapping : Mapping :=
  dispatch
    (constant_adapters
       (Some (mkModalityResult true (4 # 10) "asks for a password")) None
       (Some (mkModalityResult true (5 # 10) "lookalike domain")))
    (Some "Your account is locked") (Some "http://examp1e.test/login")
    (None ≫= decoded).

(** Exactly one PhishingAttempt, tagged [source], is written when [alarm]
    holds, and none otherwise. *)
Definition one_attempt_iff (alarm : bool) (source : string) (db db' : Db)
    : Prop :=
  if alarm then exists a, new_attempts db db' = [a] /\ pa_source a = source
  else new_attempts db db' = [].

(** A PhishingAttempt tagged [source] is written exactly when the decision
    of the response is suspicious or dangerous. *)
Definition attempt_iff_escalated (source : string) (db : Db)
    (out : http AnalysisResponse * Db) : Prop :=
  forall resp,
    out.1 = Ok200 resp ->
    (exists a, a ∈ new_attempts db out.2 /\ pa_source a = source) <->
    escalated (resp_final_decision resp) = true.

(** Scenario A as a call of [analyze_text]. *)
Definition scenario_A_request : TextAnalysisRequest :=
  mkTextRequest "Send me your password" "s1".

Definition scenario_A_run : http AnalysisResponse * Db :=
  analyze_text scenario_A_workflow scenario_A_request empty_db.

(** A text call on which the classifier triggers with confidence 0.1. *)
Definition low_confidence_run : http AnalysisResponse * Db :=
  analyze_text low_confidence_workflow (mkTextRequest "You won a prize" "s1")
    empty_db.

(** A workflow that answers every request with the url result [d] and a
    safe verdict. *)
Definition bare_url_workflow (d : pydict) : MultiAgentWorkflow :=
  mkWorkflow loaded_agent loaded_agent loaded_agent
    (fun _ _ _ _ => mkResult None None (Some d) (Some "safe") (Some 0%Q)
                      (Some "")).

Definition sample_url_request : UrlAnalysisRequest :=
  mkUrlRequest "http://examp1e.test/login" "s1".

(** The PhishingAttempt that [analyze_url] builds from a url result. *)
Definition url_attempt (request : UrlAnalysisRequest) (d : pydict) (t : nat)
    : PhishingAttempt :=
  mkAttempt (ureq_session_id request) "url" (ureq_url request)
    (dict_get_default d "reason" (PStr "Malicious URL detected"))
    (dict_get_default d "confidence" (PFloat 0)) t.

(** Whenever the url result mapping lacks a truthy [safe], a returning
    [analyze_url] call writes a PhishingAttempt tagged url. *)
Definition url_attempt_whenever_unsafe (workflow : MultiAgentWorkflow)
    (request : UrlAnalysisRequest) (db : Db) : Prop :=
  forall d resp db',
    url_result (analyze_sync workflow None (Some (ureq_url request)) None
                  (ureq_session_id request)) = Some d ->
    truthy (dict_get d "safe") = false ->
    analyze_url workflow request db = (Ok200 resp, db') ->
    exists t, new_attempts db db' = [url_attempt request d t].

(** A persistence operation of the handler body fails with
    [StorageUnavailable]. *)
Definition persistence_fails {A} (body : M A) (db : Db) : Prop :=
  exists db', body db = (inl StorageUnavailable, db').

(** The analysis result still reaches the caller of [analyze_text] when
    persistence fails. *)
Definition result_returned_despite_failure (workflow : MultiAgentWorkflow)
    (request : TextAnalysisRequest) (db : Db) : Prop :=
  persistence_fails (analyze_text_body workflow request) db ->
  exists resp db',
    analyze_text workflow request db = (Ok200 resp, db') /\
    copies_fusion
      (analyze_sync workflow (Some (treq_text request)) None None
         (treq_session_id request)) resp.

(** A chat call on which no classifier is available. *)
Definition unknown_chat_run : http ChatResponse * Db :=
  chat unavailable_workflow "hello" None None "s1" empty_db.

(** * Vocabulary of the further properties *)

(** What a ScanRecord says besides its session and its time. *)
Definition scan_key (s : ScanRecord) : modality * string * pydict :=
  (scan_modality s, scan_input s, scan_result s).

(** The scan a guard [if result.get(key) and c] lets through. *)
Definition expected_scan (md : modality) (input : string) (o : option pydict)
    (c : bool) : list (modality * string * pydict) :=
  match o with
  | Some d => if dict_truthy d && c then [(md, input, d)] else []
  | None => []
  end.

(** The same for an optional input [x], which has to be there as well. *)
Definition expected_scan_and {I} (md : modality) (x : option I)
    (c : I -> bool) (input : I -> string) (o : option pydict)
    : list (modality * string * pydict) :=
  match x with
  | Some i => expected_scan md (input i) o (c i)
  | None => []
  end.

(** The scans that lead from [db] to [db'] are appended to the log and say
    [keys]. *)
Definition scans_added (db db' : Db) (keys : list (modality * string * pydict))
    : Prop :=
  exists l, scans db' = (scans db ++ l)%list /\ map scan_key l = keys.

(** [db'] extends [db] on behalf of the session [sid]: the three logs only
    grow, by records of that session; no other session is touched and a
    known session keeps its creation time; the clock does not go back. *)
Definition extends_for (sid : string) (db db' : Db) : Prop :=
  (forall id, id <> sid -> sessions db' !! id = sessions db !! id) /\
  (forall s, sessions db !! sid = Some s ->
             exists s', sessions db' !! sid = Some s' /\
                        created_at s' = created_at s) /\
  (exists l, scans db' = (scans db ++ l)%list /\
             Forall (fun s => scan_session s = sid) l) /\
  (exists l, attempts db' = (attempts db ++ l)%list /\
             Forall (fun a => pa_session a = sid) l) /\
  (exists l, chats db' = (chats db ++ l)%list /\
             Forall (fun c => chat_session c = sid) l) /\
  clock db <= clock db'.

(** Whatever the outcome of [m], the store it leaves extends the one it
    started from. *)
Definition extends_store {A} (sid : string) (m : M A) : Prop :=
  forall db, extends_for sid db (m db).2.

(** Once the session is known, [m] never raises [UnknownSession] and the
    session stays known. *)
Definition knows_session {A} (sid : string) (m : M A) : Prop :=
  forall db, is_Some (sessions db !! sid) ->
             (m db).1 <> inl UnknownSession /\
             is_Some (sessions (m db).2 !! sid).

(** The content of the aggregate PhishingAttempt of [analyze_all]. *)
Definition combined_content (text url : option string)
    (file : option UploadFile) : string :=
  "Text: " +:+ opt_str_format text +:+ ", URL: " +:+ opt_str_format url
  +:+ ", Image: " +:+ match file with
                      | Some f => filename f
                      | None => "None"
                      end.

(** An uploaded file whose bytes are not an image. *)
Definition broken_upload : UploadFile := mkUpload "notes.txt" None.

(** An uploaded file that decodes. *)
Definition logo_upload : UploadFile := mkUpload "logo.png" (Some (Bitmap [])).

(** A workflow whose result has none of the optional keys. *)
Definition silent_workflow : MultiAgentWorkflow :=
  mkWorkflow loaded_agent loaded_agent loaded_agent
    (fun _ _ _ _ => mkResult None None None None None None).

(** A workflow that answers every request with the same result. *)
Definition constant_workflow (result : WorkflowResult) : MultiAgentWorkflow :=
  mkWorkflow loaded_agent loaded_agent loaded_agent (fun _ _ _ _ => result).

(** A multi-input call with an empty text, a URL and a logo, on which no
    classifier triggers. *)
Definition empty_text_run : http AnalysisResponse * Db :=
  analyze_all (sample_workflow (Some benign) (Some benign) (Some benign))
    (Some "") (Some "http://example.test/") (Some logo_upload) "s1" empty_db.

(** A chat call with an empty message, on which no classifier triggers. *)
Definition empty_message_run : http ChatResponse * Db :=
  chat (sample_workflow (Some benign) (Some benign) (Some benign))
    "" None None "s1" empty_db.

Definition no_chat_response : ChatResponse :=
  mkChatResponse "" no_response "".

(** The chat turns written between two states of the store. *)
Definition new_chats (db db' : Db) : list ChatTurn :=
  drop (length (chats db)) (chats db').

(** Scenario A as a chat call. *)
Definition scenario_A_chat_run : http ChatResponse * Db :=
  chat scenario_A_workflow "Send me your password" None None "s1" empty_db.

(** A multi-input call on a workflow whose result says dangerous and lacks
    the explanation and the risk score. *)
Definition bare_dangerous_run : http AnalysisResponse * Db :=
  analyze_all
    (constant_workflow (mkResult None None None (Some "dangerous") None None))
    (Some "Your account is locked") None None "s1" empty_db.

(** A text call on a workflow whose text result raises [is_fraud] and holds
    [None] under [reason], with no [confidence] key. *)
Definition none_reason_result : pydict :=
  <["is_fraud" := PBool true]> (<["reason" := PNone]> ∅).

Definition none_reason_run : http AnalysisResponse * Db :=
  analyze_text
    (constant_workflow
       (mkResult None (Some none_reason_result) None (Some "dangerous")
          (Some (9 # 10)%Q) (Some "")))
    scenario_A_request empty_db.

(** The causes of an [HTTPException] that the model knows: always status
    500, and the session id is empty, or the store is in outage at some time
    after the call began, or the uploaded file is not an image. *)
Definition failure_cause (sid : string) (file : option UploadFile) (db : Db)
    (status_code : Z) (detail : string) : Prop :=
  status_code = 500%Z /\
  ((sid = "" /\ detail = exn_str InvalidIdentity) \/
   (detail = exn_str StorageUnavailable /\
    exists t, clock db < t /\ reachable db t = false) \/
   (detail = exn_str UnidentifiedImage /\
    exists f, file = Some f /\ decoded f = None)).


(** The response of a single-modality handler, built from the workflow's
    result: only the slot of its own modality is filled. *)
Definition response_of (md : modality) (result : WorkflowResult)
    (session_id : string) : AnalysisResponse :=
  {| resp_logo_result :=
       match md with Logo => logo_result result | _ => None end;
     resp_text_result :=
       match md with Text => text_result result | _ => None end;
     resp_url_result :=
       match md with Url => url_result result | _ => None end;
     resp_final_decision := default "unknown" (final_decision result);
     resp_risk_score := default 0%Q (risk_score result);
     resp_explanation := default "" (explanation result);
     resp_session_id := session_id |}.

(** A text call on a workflow whose result has no key at all. *)
Definition silent_run : http AnalysisResponse * Db :=
  analyze_text silent_workflow scenario_A_request empty_db.

(** A workflow whose result fills all three modality slots. *)
Definition full_result : WorkflowResult :=
  mkResult (Some (native Logo benign)) (Some (native Text benign))
    (Some (native Url benign)) (Some "safe") (Some 0%Q) (Some "fine").

(** The store after [create_or_update_session], whether it succeeded or
    not. *)
Definition session_ensured (sid : string) (db : Db) : Db :=
  if str_truthy sid then touch_session sid db else db.

(** Whatever its outcome, [m] leaves the table of sessions as it is. *)
Definition keeps_sessions {A} (m : M A) : Prop :=
  forall db, sessions (m db).2 = sessions db.

(** A store that is up, behind a session that refuses plain strings
    (SQLAlchemy 2.x). *)
Definition strict_sql_db : Db := mkDb ∅ [] [] [] 0 (fun _ => true) false.

(** * Vocabulary of the revised statements *)

(** The contribution of a modality with its confidence clamped to [0,1]:
    [min(1, max(0, confidence_i))] if the modality triggered and 0
    otherwise. *)
Definition clamped_contribution (r : ModalityResult) : Q :=
  if triggered r then Qmin 1 (Qmax 0 (confidence r)) else 0%Q.

(** The response carries the noisy-OR of the clamped contributions and the
    decision that the fixed thresholds give it. *)
Definition fused_by_clamped_noisy_or (m : Mapping) (resp : AnalysisResponse)
    : Prop :=
  let risk := resp_risk_score resp in
  (risk == 1 - Qprod (map (fun r => 1 - clamped_contribution r) (entries m)))%Q
  /\
  ((risk < 3 # 10)%Q -> resp_final_decision resp = "safe") /\
  ((3 # 10 <= risk)%Q -> (risk < 7 # 10)%Q ->
   resp_final_decision resp = "suspicious") /\
  ((7 # 10 <= risk)%Q -> resp_final_decision resp = "dangerous").

(** The fusion rule with the confidences as they come: a call that returns
    for a mapping that is not empty carries the noisy-OR of the stated
    contributions. *)
Definition risk_is_stated_noisy_or (m : Mapping)
    (out : http AnalysisResponse * Db) : Prop :=
  forall resp,
    out.1 = Ok200 resp -> entries m <> [] -> fused_by_noisy_or m resp.

(** The text classifier triggers with a confidence above 1. *)
Definition over_confident : ModalityResult :=
  mkModalityResult true (3 # 2) "asks for a password".

Definition over_confident_run : http AnalysisResponse * Db :=
  analyze_text (sample_workflow (Some over_confident) None None)
    scenario_A_request empty_db.

Definition over_confident_mapping : Mapping :=
  dispatch (constant_adapters (Some over_confident) None None)
    (Some (treq_text scenario_A_request)) None None.

(** The adapters of Scenario A. *)
Definition scenario_A_adapters : Adapters :=
  constant_adapters
    (Some (mkModalityResult true (9 # 10) "asks for a password"))
    (Some benign) (Some benign).

(** For every call of [analyze_all], returning or not, one PhishingAttempt
    tagged combined is written exactly when the fused decision is suspicious
    or dangerous. *)
Definition combined_attempt_iff_escalated (workflow : MultiAgentWorkflow)
    (text url : option string) (file : option UploadFile)
    (session_id : string) (db : Db) : Prop :=
  let result := analyze_sync workflow text url (file ≫= decoded) session_id in
  let db' := (analyze_all workflow text url file session_id db).2 in
  (exists a, new_attempts db db' = [a] /\ pa_source a = "combined") <->
  in_suspicious_dangerous (final_decision result) = true.


(** After the call the session is known: created when the call began unless
    it existed, in which case it keeps its creation time, and last active
    no earlier than the call. *)
Definition session_known_after (sid : string) (db db' : Db) : Prop :=
  exists s,
    sessions db' !! sid = Some s /\
    created_at s = from_option created_at (clock db) (sessions db !! sid) /\
    clock db <= last_active_at s.

(** Scenario A a second time, on the store that the first call left. *)
Definition scenario_A_again : http AnalysisResponse * Db :=
  analyze_text scenario_A_workflow scenario_A_request scenario_A_run.2.

(** * Reasoning rules for handler bodies *)

Section Rules.
Context {A B : Type}.

Lemma on_return_ret (a : A) db (Q : A -> Db -> Prop) :
  Q a db -> on_return (ret a) db Q.
Proof. intros HQ a' db' [= <- <-]. exact HQ. Qed.

Lemma on_return_raise e db (Q : A -> Db -> Prop) :
  on_return (raise e) db Q.
Proof. intros a' db' [=]. Qed.

Lemma on_return_bind (m : M A) (k : A -> M B) db (Q : B -> Db -> Prop) :
  on_return m db (fun a db1 => on_return (k a) db1 Q) ->
  on_return (bind m k) db Q.
Proof.
  intros Hm b db' Hrun. unfold bind in Hrun.
  destruct (m db) as [[e|a] db1] eqn:Em; [discriminate|].
  exact (Hm a db1 Em b db' Hrun).
Qed.

Lemma on_return_bind_any (m : M A) (k : A -> M B) db (Q : B -> Db -> Prop) :
  (forall a db1, on_return (k a) db1 Q) ->
  on_return (bind m k) db Q.
Proof.
  intros Hk. apply on_return_bind. intros a db1 _. apply Hk.
Qed.

Lemma on_return_weaken (m : M A) db (Q Q' : A -> Db -> Prop) :
  (forall a db', Q a db' -> Q' a db') ->
  on_return m db Q -> on_return m db Q'.
Proof. intros HQ Hm a db' Hrun. apply HQ, Hm, Hrun. Qed.

Lemma try_except_Ok200 (m : M A) db a db' :
  try_except m db = (Ok200 a, db') <-> m db = (inr a, db').
Proof.
  unfold try_except. destruct (m db) as [[e|a0] db1]; split; intros [=]; subst; reflexivity.
Qed.

Lemma try_except_raised (m : M A) db e db' :
  m db = (inl e, db') ->
  try_except m db = (HTTPException 500 (exn_str e), db').
Proof. unfold try_except. intros ->. reflexivity. Qed.

Lemma bind_returned (m : M A) (k : A -> M B) db a db' :
  m db = (inr a, db') -> bind m k db = k a db'.
Proof. unfold bind. intros ->. reflexivity. Qed.

Lemma bind_raised (m : M A) (k : A -> M B) db e db' :
  m db = (inl e, db') -> bind m k db = (inl e, db').
Proof. unfold bind. intros ->. reflexivity. Qed.
End Rules.

Lemma on_return_when c (body : M unit) db (Q : unit -> Db -> Prop) :
  (c = true -> on_return body db Q) ->
  (c = false -> Q tt db) ->
  on_return (when c body) db Q.
Proof.
  destruct c; simpl; intros Ht Hf.
  - apply Ht. reflexivity.
  - apply on_return_ret, Hf. reflexivity.
Qed.

Lemma on_return_if_result o c (body : pydict -> M unit) db
    (Q : unit -> Db -> Prop) :
  (forall d, o = Some d -> dict_truthy d = true -> c = true ->
             on_return (body d) db Q) ->
  (opt_dict_truthy o && c = false -> Q tt db) ->
  on_return (if_result o c body) db Q.
Proof.
  intros Hrun Hskip. destruct o as [d|]; simpl in *.
  - apply on_return_when.
    + intros [Hd Hc]%andb_true_iff. apply (Hrun d); auto.
    + exact Hskip.
  - apply on_return_ret, Hskip. reflexivity.
Qed.

(** The store operations, when they return. *)

Lemma on_return_ensure_session id db (Q : unit -> Db -> Prop) :
  (str_truthy id = true -> Q tt (touch_session id db)) ->
  on_return (ensure_session id) db Q.
Proof.
  intros HQ a db'. unfold ensure_session.
  destruct (str_truthy id); intros [= <- <-]. auto.
Qed.

Lemma on_return_record_scan sid md input result db (Q : unit -> Db -> Prop) :
  (is_Some (sessions db !! sid) -> reachable db (clock db) = true ->
   Q tt (add_scan sid md input result db)) ->
  on_return (record_scan sid md input result) db Q.
Proof.
  intros HQ a db'. unfold record_scan.
  destruct (sessions db !! sid) eqn:Es; [|intros [=]].
  destruct (reachable db (clock db)) eqn:Er; intros [= <- <-].
  eauto.
Qed.

Lemma on_return_record_phishing_attempt sid source content rsn conf db
    (Q : unit -> Db -> Prop) :
  (is_Some (sessions db !! sid) ->
   Q tt (add_attempt sid source content rsn conf db)) ->
  on_return (record_phishing_attempt sid source content rsn conf) db Q.
Proof.
  intros HQ a db'. unfold record_phishing_attempt.
  destruct (sessions db !! sid) eqn:Es; intros [= <- <-].
  eauto.
Qed.

Lemma on_return_record_chat_turn sid user bot db (Q : unit -> Db -> Prop) :
  (is_Some (sessions db !! sid) -> Q tt (add_chat sid user bot db)) ->
  on_return (record_chat_turn sid user bot) db Q.
Proof.
  intros HQ a db'. unfold record_chat_turn.
  destruct (sessions db !! sid) eqn:Es; intros [= <- <-].
  eauto.
Qed.

Lemma on_return_Image_open file db (Q : Image -> Db -> Prop) :
  (forall image, decoded file = Some image -> Q image db) ->
  on_return (Image_open file) db Q.
Proof.
  intros HQ a db'. unfold Image_open.
  destruct (decoded file) eqn:Ed; intros [= <- <-]. apply HQ. reflexivity.
Qed.

Lemma on_return_prepare_image file db (Q : option Image -> Db -> Prop) :
  (forall image, (file ≫= decoded) = image -> Q image db) ->
  on_return (prepare_image file) db Q.
Proof.
  intros HQ a db'. unfold prepare_image, Image_open.
  destruct file as [f|]; simpl.
  - destruct (decoded f) eqn:Ed; intros [= <- <-].
    apply HQ. simpl. exact Ed.
  - intros [= <- <-]. apply HQ. reflexivity.
Qed.

(** * The health endpoint *)

Ltac health_cases workflow db :=
  unfold store_reachable, store_up, all_models_loaded, model_loaded in *;
  unfold health_check, db_execute_select_1 in *;
  destruct workflow as [[ml] [mt] [mu] sync];
  cbn [logo_agent text_agent url_agent model] in *;
  destruct (accepts_raw_sql db) eqn:Eraw;
    destruct (reachable db (clock db)) eqn:Eup;
    destruct ml, mt, mu; vm_compute;
    repeat split; intros; try discriminate; try congruence;
    intuition (try discriminate; try congruence).

(** The probe succeeds exactly when the session takes the plain string and
    the store is up. *)
Lemma store_reachable_iff db :
  store_reachable db <-> accepts_raw_sql db = true /\ store_up db.
Proof.
  unfold store_reachable, store_up, db_execute_select_1.
  destruct (accepts_raw_sql db); destruct (reachable db (clock db)); cbn;
    intuition (try discriminate; try congruence).
Qed.

Lemma health_check_database_connected workflow db :
  database_connected (health_check workflow db) = true <-> store_reachable db.
Proof.
  unfold health_check, store_reachable. cbn [database_connected].
  destruct (db_execute_select_1 db) as [[e|[]] db1]; cbn;
    intuition (try discriminate; try congruence).
Qed.

(** The status in terms of the outcome of the probe: [healthy] if and only
    if all three models are loaded and the probe succeeds,
    [degraded_fallback] if and only if the probe succeeds and some model is
    not loaded, [degraded] if and only if the probe fails. *)
Lemma health_check_status_by_probe workflow db :
  let r := health_check workflow db in
  (status r = "healthy" <-> all_models_loaded workflow /\ store_reachable db) /\
  (status r = "degraded_fallback" <->
     store_reachable db /\ ~ all_models_loaded workflow) /\
  (status r = "degraded" <-> ~ store_reachable db).
Proof. cbv zeta. health_cases workflow db. Qed.

(** C7, where the code departs from it.  When the session takes the plain
    string "SELECT 1", the status is [healthy] if and only if all three
    models are loaded and the store is up, [degraded_fallback] if and only if
    the store is up and some model is not loaded, and [degraded] if and only
    if the store is down, as the claim has it.  When the session refuses
    plain strings, the probe raises before it reaches the store, the bare
    [except] takes that for a lost connection, and the status is [degraded]
    with [database_connected] false, whatever the models and the store. *)
Theorem health_check_status_depends_on_raw_sql workflow db :
  let r := health_check workflow db in
  (accepts_raw_sql db = true ->
   (status r = "healthy" <-> all_models_loaded workflow /\ store_up db) /\
   (status r = "degraded_fallback" <->
      store_up db /\ ~ all_models_loaded workflow) /\
   (status r = "degraded" <-> ~ store_up db)) /\
  (accepts_raw_sql db = false ->
   status r = "degraded" /\ database_connected r = false).
Proof. cbv zeta. health_cases workflow db. Qed.

Lemma health_check_status_depends_on_raw_sql_witness :
  accepts_raw_sql strict_sql_db = false /\
  all_models_loaded scenario_A_workflow /\
  store_up strict_sql_db /\
  status (health_check scenario_A_workflow strict_sql_db) = "degraded" /\
  database_connected (health_check scenario_A_workflow strict_sql_db) = false.
Proof.
  split; [reflexivity|]. split; [repeat split|]. split; [reflexivity|].
  apply (proj2 (health_check_status_depends_on_raw_sql scenario_A_workflow
                  strict_sql_db)).
  reflexivity.
Defined.

(** * The chat history endpoint *)

Lemma query_chat_history_length session_id limit db :
  forall turns db',
    query_chat_history session_id limit db = (inr turns, db') ->
    db' = db /\
    length turns =
      Nat.min (Z.to_nat limit) (length (matching_turns session_id db)).
Proof.
  unfold query_chat_history, matching_turns. intros turns db' [= <- <-].
  split; [reflexivity|]. rewrite length_take, length_rev. reflexivity.
Qed.

(** C6. For every get_history call the returned count ([total]) is the
    number of chat-turn records in the returned [history], which is at most
    [limit] (no record at all for a limit below zero) and at most the number
    of matching records in the store; it is not the store-wide total. *)
Theorem get_chat_history_total_is_returned_count session_id limit db :
  exists resp,
    get_chat_history session_id limit db = (Ok200 resp, db) /\
    total resp = length (history resp) /\
    (Z.of_nat (total resp) <= Z.max 0 limit)%Z /\
    total resp =
      Nat.min (Z.to_nat limit) (length (matching_turns session_id db)).
Proof.
  unfold get_chat_history, get_chat_history_body, Repository.get_chat_history.
  destruct (query_chat_history session_id limit db) as [[e|turns] db1] eqn:Eq.
  - discriminate Eq.
  - destruct (query_chat_history_length _ _ _ _ _ Eq) as [-> Hlen].
    eexists. split.
    + apply try_except_Ok200. erewrite bind_returned by exact Eq. reflexivity.
    + cbn [total history]. rewrite length_map. split; [reflexivity|].
      split; [|exact Hlen]. rewrite Hlen. lia.
Qed.

(** The count can be smaller than the number of matching records: with
    three turns stored and [limit = 2], the two most recent come back and
    [total] is 2. *)
Example get_chat_history_three_turns_limit_two :
  let db := add_chat "s" "third" "c"
              (add_chat "s" "second" "b"
                 (add_chat "s" "first" "a"
                    (touch_session "s" empty_db))) in
  exists resp,
    fst (get_chat_history None 2 db) = Ok200 resp /\
    total resp = 2 /\
    map item_user_message (history resp) = ["third"; "second"] /\
    length (matching_turns None db) = 3.
Proof. eexists. repeat split. Qed.

(** * Session identity *)

Lemma ensure_session_empty db :
  ensure_session "" db = (inl InvalidIdentity, db).
Proof. reflexivity. Qed.

Lemma ensure_session_nonempty id db :
  id <> "" -> ensure_session id db = (inr tt, touch_session id db).
Proof. destruct id; [congruence|reflexivity]. Qed.

(** C9. [ensure_session] with an empty session id fails with
    [InvalidIdentity]; every handler that reaches the session store with an
    empty id is rejected (HTTP 500 carrying that error) with the store left
    exactly as it was; and [ensure_session] with a non-empty id never
    errors. *)
Theorem empty_session_id_rejected_before_side_effects :
  (forall db, ensure_session "" db = (inl InvalidIdentity, db)) /\
  (forall workflow text db,
      analyze_text workflow (mkTextRequest text "") db
      = (HTTPException 500 "InvalidIdentity", db)) /\
  (forall workflow file db,
      analyze_logo workflow file "" db
      = (HTTPException 500 "InvalidIdentity", db)) /\
  (forall workflow url db,
      analyze_url workflow (mkUrlRequest url "") db
      = (HTTPException 500 "InvalidIdentity", db)) /\
  (forall workflow text url file db,
      analyze_all workflow text url file "" db
      = (HTTPException 500 "InvalidIdentity", db)) /\
  (forall workflow message url file db,
      chat workflow message url file "" db
      = (HTTPException 500 "InvalidIdentity", db)) /\
  (forall id db, id <> "" -> exists db', ensure_session id db = (inr tt, db')).
Proof.
  repeat split; try reflexivity.
  intros id db Hid. eexists. apply ensure_session_nonempty, Hid.
Qed.

Lemma empty_session_id_rejected_witness :
  "s1" <> "" /\ exists db', ensure_session "s1" empty_db = (inr tt, db').
Proof.
  split; [discriminate|].
  apply (proj2 (proj2 (proj2 (proj2 (proj2 (proj2
           empty_session_id_rejected_before_side_effects)))))).
  discriminate.
Defined.

(** * A request without inputs *)

Lemma fuse_no_entries m :
  entries m = [] ->
  fuse m = (0%Q, "unknown", "No input provided for analysis.").
Proof. unfold fuse. intros ->. reflexivity. Qed.

Lemma dispatch_no_inputs ad :
  dispatch ad None None None = mkMapping None None None.
Proof. reflexivity. Qed.

(** C8. For every analyze call supplied with no inputs the mapping of
    modality results is empty and no ScanRecord and no PhishingAttempt is
    written; when the session id is well formed the call returns
    [risk_score = 0.0] and [decision = unknown], and the only effect on the
    store is that the session is ensured. *)
Theorem analyze_all_no_inputs ad logo text url session_id db :
  let workflow := spec_workflow ad logo text url in
  let out := analyze_all workflow None None None session_id db in
  entries (dispatch ad None None None) = [] /\
  scans out.2 = scans db /\
  attempts out.2 = attempts db /\
  (session_id <> "" ->
   exists resp,
     out.1 = Ok200 resp /\
     resp_risk_score resp = 0%Q /\
     resp_final_decision resp = "unknown" /\
     resp_explanation resp = "No input provided for analysis." /\
     out.2 = touch_session session_id db).
Proof.
  cbv zeta. split; [reflexivity|].
  destruct session_id as [|c rest].
  - repeat split; try reflexivity. congruence.
  - repeat split; try reflexivity. intros _. eexists. repeat split.
Qed.

Lemma analyze_all_no_inputs_witness :
  "s1" <> "" /\
  exists resp,
    (analyze_all unavailable_workflow None None None "s1" empty_db).1
      = Ok200 resp /\
    resp_risk_score resp = 0%Q /\
    resp_final_decision resp = "unknown" /\
    resp_explanation resp = "No input provided for analysis." /\
    (analyze_all unavailable_workflow None None None "s1" empty_db).2
      = touch_session "s1" empty_db.
Proof.
  split; [discriminate|].
  apply (analyze_all_no_inputs (constant_adapters None None None)
           loaded_agent loaded_agent loaded_agent "s1" empty_db).
  discriminate.
Defined.

(** * What a response carries *)

Ltac skip_step := apply on_return_bind_any; intros ? ?.

Lemma analyze_text_response workflow request db resp db' :
  analyze_text workflow request db = (Ok200 resp, db') ->
  copies_fusion
    (analyze_sync workflow (Some (treq_text request)) None None
       (treq_session_id request)) resp.
Proof.
  intros Hrun%try_except_Ok200. revert resp db' Hrun.
  change (on_return (analyze_text_body workflow request) db
            (fun resp _ => copies_fusion
               (analyze_sync workflow (Some (treq_text request)) None None
                  (treq_session_id request)) resp)).
  unfold analyze_text_body. do 2 skip_step.
  apply on_return_ret. repeat split.
Qed.

Lemma analyze_logo_response workflow file session_id db resp db' :
  analyze_logo workflow file session_id db = (Ok200 resp, db') ->
  copies_fusion
    (analyze_sync workflow None None (decoded file) session_id) resp.
Proof.
  intros Hrun%try_except_Ok200. revert resp db' Hrun.
  change (on_return (analyze_logo_body workflow file session_id) db
            (fun resp _ => copies_fusion
               (analyze_sync workflow None None (decoded file) session_id)
               resp)).
  unfold analyze_logo_body. skip_step.
  apply on_return_bind, on_return_Image_open. intros image ->.
  skip_step. apply on_return_ret. repeat split.
Qed.

Lemma analyze_url_response workflow request db resp db' :
  analyze_url workflow request db = (Ok200 resp, db') ->
  copies_fusion
    (analyze_sync workflow None (Some (ureq_url request)) None
       (ureq_session_id request)) resp.
Proof.
  intros Hrun%try_except_Ok200. revert resp db' Hrun.
  change (on_return (analyze_url_body workflow request) db
            (fun resp _ => copies_fusion
               (analyze_sync workflow None (Some (ureq_url request)) None
                  (ureq_session_id request)) resp)).
  unfold analyze_url_body. do 2 skip_step.
  apply on_return_ret. repeat split.
Qed.

Lemma analyze_all_response workflow text url file session_id db resp db' :
  analyze_all workflow text url file session_id db = (Ok200 resp, db') ->
  copies_fusion
    (analyze_sync workflow text url (file ≫= decoded) session_id) resp.
Proof.
  intros Hrun%try_except_Ok200. revert resp db' Hrun.
  change (on_return (analyze_all_body workflow text url file session_id) db
            (fun resp _ => copies_fusion
               (analyze_sync workflow text url (file ≫= decoded) session_id)
               resp)).
  unfold analyze_all_body. skip_step.
  apply on_return_bind, on_return_prepare_image. intros image <-.
  do 4 skip_step. apply on_return_ret. repeat split.
Qed.

(** * The fusion rule *)

Lemma Qlt_bool_iff a b : Qlt_bool a b = true <-> (a < b)%Q.
Proof.
  unfold Qlt_bool. rewrite negb_true_iff, <- not_true_iff_false, Qle_bool_iff.
  split; [apply Qnot_le_lt | apply Qlt_not_le].
Qed.

Lemma Qlt_bool_false_iff a b : Qlt_bool a b = false <-> (b <= a)%Q.
Proof.
  unfold Qlt_bool. rewrite negb_false_iff. apply Qle_bool_iff.
Qed.

Lemma clamp01_in_range q : (0 <= q <= 1)%Q -> (clamp01 q == q)%Q.
Proof.
  intros [H0 H1]. unfold clamp01.
  destruct (Qle_bool q 0) eqn:E0.
  - apply Qle_bool_iff in E0. lra.
  - destruct (Qle_bool 1 q) eqn:E1; [|reflexivity].
    apply Qle_bool_iff in E1. lra.
Qed.

Lemma contribution_in_range r :
  (0 <= confidence r <= 1)%Q -> (contribution r == stated_contribution r)%Q.
Proof.
  intros Hr. unfold contribution, stated_contribution.
  destruct (triggered r); [apply clamp01_in_range, Hr | reflexivity].
Qed.

(** The engine's risk score is the stated noisy-OR when the confidences
    respect the adapter contract. *)
Lemma noisy_or_stated rs :
  Forall (fun r => (0 <= confidence r <= 1)%Q) rs ->
  (noisy_or (map contribution rs)
   == 1 - Qprod (map (fun r => 1 - stated_contribution r) rs))%Q.
Proof.
  unfold noisy_or, Qprod. intros Hrs.
  apply Qplus_comp; [reflexivity|]. apply Qopp_comp.
  induction Hrs as [|r rs Hr _ IH]; simpl; [reflexivity|].
  rewrite IH, (contribution_in_range r Hr). reflexivity.
Qed.

(** The decision follows the fixed thresholds 0.3 and 0.7. *)
Lemma decision_of_thresholds risk :
  ((risk < 3 # 10)%Q -> decision_of risk = "safe") /\
  ((3 # 10 <= risk)%Q -> (risk < 7 # 10)%Q -> decision_of risk = "suspicious") /\
  ((7 # 10 <= risk)%Q -> decision_of risk = "dangerous").
Proof.
  unfold decision_of, SUSPICIOUS_THRESHOLD, DANGEROUS_THRESHOLD.
  destruct (Qlt_bool risk (3 # 10)) eqn:E3;
    [apply Qlt_bool_iff in E3 | apply Qlt_bool_false_iff in E3];
    (destruct (Qlt_bool risk (7 # 10)) eqn:E7;
     [apply Qlt_bool_iff in E7 | apply Qlt_bool_false_iff in E7]);
    repeat split; intros; try reflexivity; lra.
Qed.

Lemma decision_of_cases risk :
  decision_of risk = "safe" \/ decision_of risk = "suspicious" \/
  decision_of risk = "dangerous".
Proof.
  unfold decision_of.
  destruct (Qlt_bool risk _); [auto|]. destruct (Qlt_bool risk _); auto.
Qed.

(** A response that copies the result of the modelled workflow carries the
    noisy-OR risk and the threshold decision of the dispatched mapping. *)
Lemma spec_workflow_fused ad text url image session_id resp :
  let m := dispatch ad text url image in
  copies_fusion (spec_analyze_sync ad text url image session_id) resp ->
  entries m <> [] ->
  confidences_in_range m ->
  fused_by_noisy_or m resp.
Proof.
  intros m (Hd & Hr & _) Hne Hrange. unfold fused_by_noisy_or.
  unfold spec_analyze_sync in Hd, Hr. fold m in Hd, Hr.
  unfold fuse in Hd, Hr. unfold confidences_in_range in Hrange.
  destruct (entries m) as [|r rs] eqn:Em; [congruence|].
  cbn [final_decision risk_score default] in Hd, Hr. unfold id in Hd, Hr.
  rewrite Hd, Hr.
  split; [apply noisy_or_stated, Hrange|].
  apply decision_of_thresholds.
Qed.

(** Scenario B: text triggered with confidence 0.4 and url with 0.5, no
    logo: the risk score is 0.7 and the decision is dangerous. *)
Example scenario_B_dangerous :
  exists resp,
    scenario_B_run.1 = Ok200 resp /\
    (resp_risk_score resp == 7 # 10)%Q /\
    resp_final_decision resp = "dangerous".
Proof. eexists. repeat split. Qed.

(** * PhishingAttempts of the single-modality handlers *)

Lemma new_attempts_same db db' :
  attempts db' = attempts db -> new_attempts db db' = [].
Proof. unfold new_attempts. intros ->. apply drop_all. Qed.

Lemma new_attempts_app db db' (l : list PhishingAttempt) :
  attempts db' = (attempts db ++ l)%list -> new_attempts db db' = l.
Proof. unfold new_attempts. intros ->. apply drop_app_length. Qed.

(** After the session is ensured: the guarded scan and the guarded
    PhishingAttempt of a single-modality handler, then its response. *)
Ltac scan_then_alarm :=
  apply on_return_bind, on_return_if_result;
  [ intros d -> Hd _; apply on_return_bind, on_return_record_scan;
    intros _ _; apply on_return_when; intros Hflag;
    [ apply on_return_record_phishing_attempt; intros _;
      apply on_return_ret, new_attempts_app;
      unfold expected_attempts, flag_raised; rewrite Hd, Hflag; reflexivity
    | apply on_return_ret; unfold expected_attempts, flag_raised;
      rewrite Hd, Hflag; apply new_attempts_same; reflexivity ]
  | intros Hskip; apply on_return_ret; unfold expected_attempts;
    match goal with
    | |- context [match ?o with Some _ => _ | None => _ end] =>
        destruct o as [d|]; [|apply new_attempts_same; reflexivity]
    end;
    simpl in Hskip; rewrite andb_true_r in Hskip; rewrite Hskip;
    apply new_attempts_same; reflexivity ].

Lemma analyze_text_attempts workflow request db resp db' :
  analyze_text workflow request db = (Ok200 resp, db') ->
  new_attempts db db' =
    expected_attempts Text "text" "Fraudulent text detected"
      (treq_session_id request) (treq_text request)
      (text_result (analyze_sync workflow (Some (treq_text request)) None None
                      (treq_session_id request)))
      (S (S (clock db))).
Proof.
  intros Hrun%try_except_Ok200. revert resp db' Hrun.
  change (on_return (analyze_text_body workflow request) db
            (fun _ db' => new_attempts db db' =
               expected_attempts Text "text" "Fraudulent text detected"
                 (treq_session_id request) (treq_text request)
                 (text_result (analyze_sync workflow
                                 (Some (treq_text request)) None None
                                 (treq_session_id request)))
                 (S (S (clock db))))).
  unfold analyze_text_body.
  apply on_return_bind, on_return_ensure_session. intros _.
  scan_then_alarm.
Qed.

Lemma analyze_logo_attempts workflow file session_id db resp db' :
  analyze_logo workflow file session_id db = (Ok200 resp, db') ->
  new_attempts db db' =
    expected_attempts Logo "logo" "Suspicious logo detected"
      session_id (filename file)
      (logo_result (analyze_sync workflow None None (decoded file) session_id))
      (S (S (clock db))).
Proof.
  intros Hrun%try_except_Ok200. revert resp db' Hrun.
  change (on_return (analyze_logo_body workflow file session_id) db
            (fun _ db' => new_attempts db db' =
               expected_attempts Logo "logo" "Suspicious logo detected"
                 session_id (filename file)
                 (logo_result (analyze_sync workflow None None (decoded file)
                                 session_id))
                 (S (S (clock db))))).
  unfold analyze_logo_body.
  apply on_return_bind, on_return_ensure_session. intros _.
  apply on_return_bind, on_return_Image_open. intros image ->.
  scan_then_alarm.
Qed.

Lemma analyze_url_attempts workflow request db resp db' :
  analyze_url workflow request db = (Ok200 resp, db') ->
  new_attempts db db' =
    expected_attempts Url "url" "Malicious URL detected"
      (ureq_session_id request) (ureq_url request)
      (url_result (analyze_sync workflow None (Some (ureq_url request)) None
                     (ureq_session_id request)))
      (S (S (clock db))).
Proof.
  intros Hrun%try_except_Ok200. revert resp db' Hrun.
  change (on_return (analyze_url_body workflow request) db
            (fun _ db' => new_attempts db db' =
               expected_attempts Url "url" "Malicious URL detected"
                 (ureq_session_id request) (ureq_url request)
                 (url_result (analyze_sync workflow None
                                (Some (ureq_url request)) None
                                (ureq_session_id request)))
                 (S (S (clock db))))).
  unfold analyze_url_body.
  apply on_return_bind, on_return_ensure_session. intros _.
  scan_then_alarm.
Qed.

Lemma expected_attempts_one_iff md source dflt sid content o t db db' :
  new_attempts db db' = expected_attempts md source dflt sid content o t ->
  one_attempt_iff (modality_alarm md o) source db db'.
Proof.
  unfold expected_attempts, one_attempt_iff, modality_alarm. intros ->.
  destruct o as [d|]; [|reflexivity].
  destruct (dict_truthy d && flag_raised md d); [|reflexivity].
  eexists. split; reflexivity.
Qed.

(** C2, as the handlers have it.  For every single-modality analyze call
    (text, logo or url) that returns, exactly one PhishingAttempt tagged with
    that modality is written when the modality's own result is there and
    raises its own flag ([is_fraud], [is_suspicious], a [safe] that is not
    truthy), and none otherwise, whatever the fused decision is; in
    Scenario A (text only, triggered with confidence 0.9) the risk score is
    0.9, the decision is dangerous and exactly one PhishingAttempt, tagged
    text, is written. *)
Theorem single_modality_attempt_iff_own_flag workflow :
  (forall request db resp db',
      analyze_text workflow request db = (Ok200 resp, db') ->
      one_attempt_iff
        (modality_alarm Text
           (text_result (analyze_sync workflow (Some (treq_text request))
                           None None (treq_session_id request))))
        "text" db db') /\
  (forall file session_id db resp db',
      analyze_logo workflow file session_id db = (Ok200 resp, db') ->
      one_attempt_iff
        (modality_alarm Logo
           (logo_result (analyze_sync workflow None None (decoded file)
                           session_id)))
        "logo" db db') /\
  (forall request db resp db',
      analyze_url workflow request db = (Ok200 resp, db') ->
      one_attempt_iff
        (modality_alarm Url
           (url_result (analyze_sync workflow None (Some (ureq_url request))
                          None (ureq_session_id request))))
        "url" db db') /\
  (exists resp a,
      scenario_A_run.1 = Ok200 resp /\
      (resp_risk_score resp == 9 # 10)%Q /\
      resp_final_decision resp = "dangerous" /\
      new_attempts empty_db scenario_A_run.2 = [a] /\
      pa_source a = "text").
Proof.
  split; [|split; [|split]].
  - intros request db resp db' Hrun%analyze_text_attempts.
    eapply expected_attempts_one_iff, Hrun.
  - intros file session_id db resp db' Hrun%analyze_logo_attempts.
    eapply expected_attempts_one_iff, Hrun.
  - intros request db resp db' Hrun%analyze_url_attempts.
    eapply expected_attempts_one_iff, Hrun.
  - do 2 eexists. repeat split.
Qed.

Lemma single_modality_attempt_iff_own_flag_witness :
  scenario_A_run
  = (Ok200 (body_or no_response scenario_A_run.1), scenario_A_run.2) /\
  one_attempt_iff true "text" empty_db scenario_A_run.2.
Proof.
  assert (Hrun : scenario_A_run
                 = (Ok200 (body_or no_response scenario_A_run.1),
                    scenario_A_run.2)) by (vm_compute; reflexivity).
  split; [exact Hrun|].
  exact (proj1 (single_modality_attempt_iff_own_flag scenario_A_workflow)
           scenario_A_request empty_db _ _ Hrun).
Defined.

(** The claim as stated fails: on a text call whose classifier triggers
    with confidence 0.1 the fused decision is safe (risk 0.1 < 0.3), yet a
    PhishingAttempt tagged text is written. *)
Lemma attempt_not_iff_escalated_counterexample :
  ~ attempt_iff_escalated "text" empty_db low_confidence_run.
Proof.
  intros Hclaim.
  assert (Hrun : low_confidence_run.1
                 = Ok200 (body_or no_response low_confidence_run.1))
    by (vm_compute; reflexivity).
  destruct (Hclaim _ Hrun) as [Hescalated _].
  assert (Hfalse : escalated
                     (resp_final_decision
                        (body_or no_response low_confidence_run.1)) = false)
    by (vm_compute; reflexivity).
  rewrite Hescalated in Hfalse; [discriminate|].
  exists (mkAttempt "s1" "text" "You won a prize" (PStr "mentions a prize")
            (PFloat (1 # 10)) 2).
  split; [|reflexivity].
  vm_compute. left.
Qed.

(** * PhishingAttempts of the multi-input handler *)

Lemma escalated_default_unknown o :
  escalated (default "unknown" o) = in_suspicious_dangerous o.
Proof. destruct o; reflexivity. Qed.

(** A guarded scan leaves the PhishingAttempts and the chat transcript as
    they are. *)
Lemma on_return_guarded_scan o c sid md input db (Q : unit -> Db -> Prop) :
  (forall db1, attempts db1 = attempts db -> chats db1 = chats db ->
               Q tt db1) ->
  on_return (if_result o c (record_scan sid md input)) db Q.
Proof.
  intros HQ. apply on_return_if_result.
  - intros d _ _ _. apply on_return_record_scan. intros _ _.
    apply HQ; reflexivity.
  - intros _. apply HQ; reflexivity.
Qed.

Lemma on_return_guarded_scan_and {I} o (x : option I) c sid md
    (input : I -> string) db (Q : unit -> Db -> Prop) :
  (forall db1, attempts db1 = attempts db -> chats db1 = chats db ->
               Q tt db1) ->
  on_return (if_result_and o x c (fun i => record_scan sid md (input i))) db Q.
Proof.
  intros HQ. destruct x as [i|]; simpl.
  - apply on_return_guarded_scan, HQ.
  - apply on_return_ret, HQ; reflexivity.
Qed.

Lemma analyze_all_attempts workflow text url file session_id db resp db' :
  analyze_all workflow text url file session_id db = (Ok200 resp, db') ->
  one_attempt_iff (escalated (resp_final_decision resp)) "combined" db db'.
Proof.
  intros Hrun%try_except_Ok200. revert resp db' Hrun.
  change (on_return (analyze_all_body workflow text url file session_id) db
            (fun resp db' =>
               one_attempt_iff (escalated (resp_final_decision resp))
                 "combined" db db')).
  unfold analyze_all_body, Repository.save_logo_scan,
    Repository.save_text_scan, Repository.save_url_scan.
  apply on_return_bind, on_return_ensure_session. intros _.
  apply on_return_bind, on_return_prepare_image. intros image _.
  set (result := analyze_sync workflow text url image session_id).
  apply on_return_bind, on_return_guarded_scan_and. intros db1 Ha1 _.
  apply on_return_bind, on_return_guarded_scan_and. intros db2 Ha2 _.
  apply on_return_bind, on_return_guarded_scan_and. intros db3 Ha3 _.
  assert (Hdb3 : attempts db3 = attempts db)
    by (rewrite Ha3, Ha2, Ha1; reflexivity).
  apply on_return_bind, on_return_when.
  - intros Hesc. apply on_return_record_phishing_attempt. intros _.
    apply on_return_ret. cbn [resp_final_decision].
    rewrite escalated_default_unknown, Hesc.
    eexists. split.
    + apply new_attempts_app. cbn [attempts add_attempt]. rewrite Hdb3.
      reflexivity.
    + reflexivity.
  - intros Hesc. apply on_return_ret. cbn [resp_final_decision].
    rewrite escalated_default_unknown, Hesc.
    apply new_attempts_same, Hdb3.
Qed.

(** C3. For every call of the multi-input analyze operation that returns,
    exactly one PhishingAttempt, tagged "combined", is written if the fused
    decision is suspicious or dangerous, and none at all otherwise; so no
    per-modality PhishingAttempt is written by that operation. *)
Theorem analyze_all_one_combined_attempt_iff_escalated
    workflow text url file session_id db resp db' :
  analyze_all workflow text url file session_id db = (Ok200 resp, db') ->
  (escalated (resp_final_decision resp) = true ->
   exists a, new_attempts db db' = [a] /\ pa_source a = "combined") /\
  (escalated (resp_final_decision resp) = false -> new_attempts db db' = []) /\
  (forall a, a ∈ new_attempts db db' -> pa_source a = "combined") /\
  ((exists a, a ∈ new_attempts db db') <->
   resp_final_decision resp = "suspicious" \/
   resp_final_decision resp = "dangerous").
Proof.
  intros Hrun%analyze_all_attempts. unfold one_attempt_iff in Hrun.
  assert (Hesc : escalated (resp_final_decision resp) = true <->
                 resp_final_decision resp = "suspicious" \/
                 resp_final_decision resp = "dangerous").
  { unfold escalated. rewrite orb_true_iff, !String.eqb_eq. reflexivity. }
  destruct (escalated (resp_final_decision resp)) eqn:E.
  - destruct Hrun as (a & Hnew & Hsrc). rewrite Hnew.
    split; [intros _; eauto|]. split; [discriminate|]. split.
    + intros a' ->%list_elem_of_singleton. exact Hsrc.
    + split; [intros _; apply Hesc; reflexivity|].
      intros _. exists a. apply list_elem_of_singleton. reflexivity.
  - rewrite Hrun. split; [discriminate|]. split; [reflexivity|]. split.
    + intros a' Ha'. inversion Ha'.
    + split.
      * intros [a' Ha']. inversion Ha'.
      * intros Hd. apply Hesc in Hd. discriminate.
Qed.

Lemma analyze_all_one_combined_attempt_iff_escalated_witness :
  scenario_B_run
  = (Ok200 (body_or no_response scenario_B_run.1), scenario_B_run.2) /\
  exists a, new_attempts empty_db scenario_B_run.2 = [a] /\
            pa_source a = "combined".
Proof.
  assert (Hrun : scenario_B_run
                 = (Ok200 (body_or no_response scenario_B_run.1),
                    scenario_B_run.2)) by (vm_compute; reflexivity).
  split; [exact Hrun|].
  apply (proj1 (analyze_all_one_combined_attempt_iff_escalated
                  scenario_B_workflow (Some "Your account is locked")
                  (Some "http://examp1e.test/login") None "s1" empty_db
                  _ _ Hrun)).
  vm_compute. reflexivity.
Defined.

(** The claim for every call, returning or not, fails: in Scenario B with
    an outage at the time of the first scan the fused decision is dangerous,
    the handler answers HTTP 500 before it reaches the PhishingAttempt, and
    nothing is written. *)
Lemma combined_attempt_iff_escalated_counterexample :
  ~ combined_attempt_iff_escalated scenario_B_workflow
      (Some "Your account is locked") (Some "http://examp1e.test/login")
      None "s1" outage_db.
Proof.
  intros [_ Hclaim].
  destruct Hclaim as (a & Hnew & _); [vm_compute; reflexivity|].
  vm_compute in Hnew. discriminate Hnew.
Qed.

(** Scenario D: all three modalities present, none triggered: the decision
    is safe, three ScanRecords and no PhishingAttempt are written. *)
Example scenario_D_three_scans_no_attempt :
  let out := analyze_all (sample_workflow (Some benign) (Some benign) (Some benign))
               (Some "See you at noon") (Some "http://example.test/")
               (Some (mkUpload "logo.png" (Some (Bitmap [])))) "s1" empty_db in
  exists resp,
    out.1 = Ok200 resp /\
    (resp_risk_score resp == 0)%Q /\
    resp_final_decision resp = "safe" /\
    length (new_scans empty_db out.2) = 3 /\
    new_attempts empty_db out.2 = [].
Proof. eexists. repeat split. Qed.

(** * The url handler and the [safe] key *)

(** The claim as stated fails on an empty url result mapping: it lacks the
    [safe] key, but an empty dict is falsy, the handler takes it for no
    result and writes nothing. *)
Lemma url_attempt_whenever_unsafe_counterexample :
  ~ url_attempt_whenever_unsafe (bare_url_workflow ∅) sample_url_request
      empty_db.
Proof.
  intros Hclaim.
  destruct (Hclaim ∅
              (body_or no_response
                 (analyze_url (bare_url_workflow ∅) sample_url_request
                    empty_db).1)
              (analyze_url (bare_url_workflow ∅) sample_url_request
                 empty_db).2) as [t Ht].
  - reflexivity.
  - reflexivity.
  - vm_compute. reflexivity.
  - vm_compute in Ht. discriminate Ht.
Qed.

(** C10, as the handler has it.  For every analyze/url call that returns
    and whose url result mapping is not empty and lacks a truthy [safe] key
    (also when the key is absent), exactly one PhishingAttempt tagged "url"
    is written, with the mapping's reason and confidence, which are the
    defaults "Malicious URL detected" and 0.0 when those fields are absent;
    an empty url result mapping is taken for no result and nothing is
    written. *)
Theorem analyze_url_attempt_when_not_safe workflow request db resp db' d :
  analyze_url workflow request db = (Ok200 resp, db') ->
  url_result (analyze_sync workflow None (Some (ureq_url request)) None
                (ureq_session_id request)) = Some d ->
  truthy (dict_get d "safe") = false ->
  (d <> ∅ ->
   exists a,
     new_attempts db db' = [a] /\
     pa_source a = "url" /\
     pa_session a = ureq_session_id request /\
     pa_content a = ureq_url request /\
     pa_reason a = default (PStr "Malicious URL detected") (d !! "reason") /\
     pa_confidence a = default (PFloat 0) (d !! "confidence") /\
     (d !! "reason" = None -> pa_reason a = PStr "Malicious URL detected") /\
     (d !! "confidence" = None -> pa_confidence a = PFloat 0)) /\
  (d = ∅ -> new_attempts db db' = []).
Proof.
  intros Hrun%analyze_url_attempts Hd Hsafe. rewrite Hd in Hrun.
  unfold expected_attempts, flag_raised in Hrun. rewrite Hsafe in Hrun.
  cbn [negb] in Hrun. rewrite andb_true_r in Hrun. unfold dict_truthy in Hrun.
  split.
  - intros Hne. rewrite bool_decide_eq_false_2 in Hrun by exact Hne.
    eexists. split; [exact Hrun|].
    cbn [pa_source pa_session pa_content pa_reason pa_confidence].
    unfold dict_get_default. repeat split.
    + intros ->. reflexivity.
    + intros ->. reflexivity.
  - intros Hempty. rewrite bool_decide_eq_true_2 in Hrun by exact Hempty.
    exact Hrun.
Qed.

Lemma analyze_url_attempt_when_not_safe_witness :
  let d : pydict := {["label" := PStr "phishing"]} in
  let out := analyze_url (bare_url_workflow d) sample_url_request empty_db in
  out = (Ok200 (body_or no_response out.1), out.2) /\
  exists a,
    new_attempts empty_db out.2 = [a] /\
    pa_source a = "url" /\
    pa_reason a = PStr "Malicious URL detected" /\
    pa_confidence a = PFloat 0.
Proof.
  intros d out.
  assert (Hrun : out = (Ok200 (body_or no_response out.1), out.2))
    by (vm_compute; reflexivity).
  split; [exact Hrun|].
  destruct (proj1 (analyze_url_attempt_when_not_safe (bare_url_workflow d)
                     sample_url_request empty_db _ _ d Hrun eq_refl eq_refl))
    as (a & Hnew & Hsrc & _ & _ & _ & _ & Hreason & Hconf).
  - vm_compute. discriminate.
  - exists a. repeat split; auto.
Defined.

(** * Persistence failures *)

Lemma touch_session_lookup id db :
  is_Some (sessions (touch_session id db) !! id).
Proof. unfold touch_session. cbn [sessions]. rewrite lookup_insert_eq. eauto. Qed.

(** A scan attempted during an outage, right after the session was ensured,
    raises [StorageUnavailable] and writes nothing. *)
Lemma record_scan_outage id md input result db :
  reachable db (S (clock db)) = false ->
  record_scan id md input result (touch_session id db)
  = (inl StorageUnavailable, touch_session id db).
Proof.
  intros Hout. unfold record_scan.
  destruct (touch_session_lookup id db) as [s ->].
  cbn [reachable clock touch_session]. rewrite Hout. reflexivity.
Qed.

(** The claim as stated fails: with an outage at the time of the scan the
    text handler answers HTTP 500 and no analysis result is returned. *)
Lemma result_returned_despite_failure_counterexample :
  ~ result_returned_despite_failure scenario_A_workflow scenario_A_request
      outage_db.
Proof.
  intros Hclaim. destruct Hclaim as (resp & db' & Hrun & _).
  - eexists. vm_compute. reflexivity.
  - vm_compute in Hrun. discriminate Hrun.
Qed.

(** C5, as the handlers have it.  For every analyze call in which a
    persistence operation fails with [StorageUnavailable], the request fails
    as a whole: the handler answers HTTP 500 with the error as detail and
    the analysis result is not returned.  In particular, when the store of a
    single-modality call is in outage at the time of the scan, the call
    answers 500 "StorageUnavailable" and only the session has been
    ensured. *)
Theorem storage_failure_fails_whole_request workflow :
  (forall request db db',
      analyze_text_body workflow request db = (inl StorageUnavailable, db') ->
      analyze_text workflow request db
      = (HTTPException 500 "StorageUnavailable", db')) /\
  (forall file session_id db db',
      analyze_logo_body workflow file session_id db
      = (inl StorageUnavailable, db') ->
      analyze_logo workflow file session_id db
      = (HTTPException 500 "StorageUnavailable", db')) /\
  (forall request db db',
      analyze_url_body workflow request db = (inl StorageUnavailable, db') ->
      analyze_url workflow request db
      = (HTTPException 500 "StorageUnavailable", db')) /\
  (forall text url file session_id db db',
      analyze_all_body workflow text url file session_id db
      = (inl StorageUnavailable, db') ->
      analyze_all workflow text url file session_id db
      = (HTTPException 500 "StorageUnavailable", db')) /\
  (forall request db,
      treq_session_id request <> "" ->
      opt_dict_truthy
        (text_result (analyze_sync workflow (Some (treq_text request)) None
                        None (treq_session_id request))) = true ->
      reachable db (S (clock db)) = false ->
      analyze_text workflow request db
      = (HTTPException 500 "StorageUnavailable",
         touch_session (treq_session_id request) db)) /\
  (forall request db,
      ureq_session_id request <> "" ->
      opt_dict_truthy
        (url_result (analyze_sync workflow None (Some (ureq_url request)) None
                       (ureq_session_id request))) = true ->
      reachable db (S (clock db)) = false ->
      analyze_url workflow request db
      = (HTTPException 500 "StorageUnavailable",
         touch_session (ureq_session_id request) db)).
Proof.
  split; [|split; [|split; [|split; [|split]]]].
  - intros request db db' Hraise.
    apply (try_except_raised _ _ _ _ Hraise).
  - intros file session_id db db' Hraise.
    apply (try_except_raised _ _ _ _ Hraise).
  - intros request db db' Hraise.
    apply (try_except_raised _ _ _ _ Hraise).
  - intros text url file session_id db db' Hraise.
    apply (try_except_raised _ _ _ _ Hraise).
  - intros request db Hid Hresult Hout.
    apply (try_except_raised _ _ StorageUnavailable).
    unfold analyze_text_body, Repository.create_or_update_session,
      Repository.save_text_scan.
    erewrite bind_returned by (apply ensure_session_nonempty, Hid).
    apply bind_raised.
    destruct (text_result _) as [d|]; [|discriminate Hresult].
    simpl in Hresult. unfold if_result. rewrite Hresult. cbn [andb when].
    apply bind_raised, record_scan_outage, Hout.
  - intros request db Hid Hresult Hout.
    apply (try_except_raised _ _ StorageUnavailable).
    unfold analyze_url_body, Repository.create_or_update_session,
      Repository.save_url_scan.
    erewrite bind_returned by (apply ensure_session_nonempty, Hid).
    apply bind_raised.
    destruct (url_result _) as [d|]; [|discriminate Hresult].
    simpl in Hresult. unfold if_result. rewrite Hresult. cbn [andb when].
    apply bind_raised, record_scan_outage, Hout.
Qed.

Lemma storage_failure_fails_whole_request_witness :
  treq_session_id scenario_A_request <> "" /\
  reachable outage_db (S (clock outage_db)) = false /\
  analyze_text scenario_A_workflow scenario_A_request outage_db
  = (HTTPException 500 "StorageUnavailable", touch_session "s1" outage_db).
Proof.
  split; [discriminate|]. split; [reflexivity|].
  apply (proj1 (proj2 (proj2 (proj2 (proj2
           (storage_failure_fails_whole_request scenario_A_workflow)))))
           scenario_A_request outage_db).
  - discriminate.
  - vm_compute. reflexivity.
  - reflexivity.
Defined.

(** * The chat endpoint *)

(** The answer of [chat] is composed from the decision, the risk score and
    the explanation of the analysis it returns; the chat turn written to the
    store carries that composed answer; no PhishingAttempt is written. *)
Lemma chat_records_composed_message workflow message url file session_id
    db resp db' :
  chat workflow message url file session_id db = (Ok200 resp, db') ->
  cresp_message resp =
    compose_bot_message (resp_final_decision (cresp_analysis resp))
      (resp_risk_score (cresp_analysis resp))
      (resp_explanation (cresp_analysis resp)) /\
  chats db' =
    (chats db ++ [mkChat (S (length (chats db))) session_id message
                    (cresp_message resp) (S (clock db))])%list /\
  attempts db' = attempts db.
Proof.
  intros Hrun%try_except_Ok200. revert resp db' Hrun.
  change (on_return (chat_body workflow message url file session_id) db
            (fun resp db' =>
               cresp_message resp =
                 compose_bot_message
                   (resp_final_decision (cresp_analysis resp))
                   (resp_risk_score (cresp_analysis resp))
                   (resp_explanation (cresp_analysis resp)) /\
               chats db' =
                 (chats db ++ [mkChat (S (length (chats db))) session_id
                                 message (cresp_message resp)
                                 (S (clock db))])%list /\
               attempts db' = attempts db)).
  unfold chat_body, Repository.save_logo_scan, Repository.save_text_scan,
    Repository.save_url_scan, Repository.save_message.
  apply on_return_bind, on_return_ensure_session. intros _.
  apply on_return_bind, on_return_prepare_image. intros image _.
  set (result := analyze_sync workflow (Some message) url image session_id).
  apply on_return_bind, on_return_record_chat_turn. intros _.
  set (db1 := add_chat _ _ _ _).
  apply on_return_bind, on_return_guarded_scan_and. intros db2 Ha2 Hc2.
  apply on_return_bind, on_return_guarded_scan. intros db3 Ha3 Hc3.
  apply on_return_bind, on_return_guarded_scan_and. intros db4 Ha4 Hc4.
  apply on_return_ret. cbn [cresp_message cresp_analysis resp_final_decision
                            resp_risk_score resp_explanation].
  split; [reflexivity|].
  rewrite Hc4, Hc3, Hc2, Ha4, Ha3, Ha2. split; reflexivity.
Qed.

Lemma compose_bot_message_otherwise decision risk expl :
  decision <> "safe" -> decision <> "suspicious" ->
  compose_bot_message decision risk expl =
    ((DANGEROUS_PROSE +:+ nl +:+ nl +:+ expl)
       +:+ nl +:+ nl +:+ "Risk Score: " +:+ format_percent risk).
Proof.
  intros Hsafe Hsusp. unfold compose_bot_message.
  destruct (String.eqb_spec decision "safe"); [contradiction|].
  destruct (String.eqb_spec decision "suspicious"); [contradiction|].
  reflexivity.
Qed.

(** C4, where the code departs from it.  On a chat call whose analysis
    ends in the decision [unknown] (no classifier available), the answer is
    the prose written for [dangerous], followed by "Risk Score: 0%": the
    decision [unknown] has no template of its own; whatever the risk score
    and the explanation, [unknown] and [dangerous] give the same answer. *)
Theorem chat_unknown_decision_gets_dangerous_prose :
  (exists resp,
      unknown_chat_run.1 = Ok200 resp /\
      resp_final_decision (cresp_analysis resp) = "unknown" /\
      cresp_message resp =
        DANGEROUS_PROSE +:+ nl +:+ nl +:+ "No input provided for analysis."
          +:+ nl +:+ nl +:+ "Risk Score: 0%") /\
  (forall risk expl,
      compose_bot_message "unknown" risk expl
      = compose_bot_message "dangerous" risk expl).
Proof.
  split.
  - eexists. repeat split.
  - intros risk expl. reflexivity.
Qed.

(** * The handlers return when nothing fails *)

Section Ready.
Context (sid : string).

Lemma returns_ready_ret {A} (a : A) : returns_ready sid (ret a).
Proof. intros db Hdb. exists a, db. split; [reflexivity|exact Hdb]. Qed.

Lemma returns_ready_bind {A B} (m : M A) (k : A -> M B) :
  returns_ready sid m -> (forall a, returns_ready sid (k a)) ->
  returns_ready sid (bind m k).
Proof.
  intros Hm Hk db Hdb.
  destruct (Hm db Hdb) as (a & db1 & Hrun & Hdb1).
  destruct (Hk a db1 Hdb1) as (b & db2 & Hrun2 & Hdb2).
  exists b, db2. split; [|exact Hdb2].
  rewrite (bind_returned _ _ _ _ _ Hrun). exact Hrun2.
Qed.

Lemma returns_ready_when c (body : M unit) :
  returns_ready sid body -> returns_ready sid (when c body).
Proof. destruct c; [auto|intros _; apply returns_ready_ret]. Qed.

Lemma returns_ready_if_result o c (body : pydict -> M unit) :
  (forall d, returns_ready sid (body d)) ->
  returns_ready sid (if_result o c body).
Proof.
  intros Hbody. destruct o as [d|]; simpl.
  - apply returns_ready_when, Hbody.
  - apply returns_ready_ret.
Qed.

Lemma returns_ready_if_result_and {I} o (x : option I) c
    (body : I -> pydict -> M unit) :
  (forall i d, returns_ready sid (body i d)) ->
  returns_ready sid (if_result_and o x c body).
Proof.
  intros Hbody. destruct x as [i|]; simpl.
  - apply returns_ready_if_result, Hbody.
  - apply returns_ready_ret.
Qed.

Lemma returns_ready_record_scan md input result :
  returns_ready sid (record_scan sid md input result).
Proof.
  intros db [[s Hs] Hup]. unfold record_scan. rewrite Hs, Hup.
  do 2 eexists. split; [reflexivity|]. split; [exists s; exact Hs|exact Hup].
Qed.

Lemma returns_ready_record_phishing_attempt source content rsn conf :
  returns_ready sid (record_phishing_attempt sid source content rsn conf).
Proof.
  intros db [[s Hs] Hup]. unfold record_phishing_attempt. rewrite Hs.
  do 2 eexists. split; [reflexivity|]. split; [exists s; exact Hs|exact Hup].
Qed.

Lemma returns_ready_record_chat_turn user bot :
  returns_ready sid (record_chat_turn sid user bot).
Proof.
  intros db [[s Hs] Hup]. unfold record_chat_turn. rewrite Hs.
  do 2 eexists. split; [reflexivity|]. split; [exists s; exact Hs|exact Hup].
Qed.

Lemma returns_ready_prepare_image file :
  (forall f, file = Some f -> is_Some (decoded f)) ->
  returns_ready sid (prepare_image file).
Proof.
  intros Hfile db Hdb. unfold prepare_image, Image_open.
  destruct file as [f|].
  - destruct (Hfile f eq_refl) as [image Himage]. rewrite Himage.
    do 2 eexists. split; [reflexivity|exact Hdb].
  - do 2 eexists. split; [reflexivity|exact Hdb].
Qed.

(** Ensuring a well-formed session makes a store without outage ready. *)
Lemma ensure_session_ready db :
  sid <> "" -> (forall t, reachable db t = true) ->
  ensure_session sid db = (inr tt, touch_session sid db) /\
  store_ready sid (touch_session sid db).
Proof.
  intros Hid Hup. split; [apply ensure_session_nonempty, Hid|].
  split; [apply touch_session_lookup|exact Hup].
Qed.

(** A handler whose body ensures the session and then stays ready
    returns. *)
Lemma try_except_returns {A} (rest : M A) db :
  sid <> "" -> (forall t, reachable db t = true) ->
  returns_ready sid rest ->
  exists a db',
    try_except (bind (ensure_session sid) (fun _ => rest)) db = (Ok200 a, db').
Proof.
  intros Hid Hup Hrest.
  destruct (ensure_session_ready db Hid Hup) as [Hensure Hready].
  destruct (Hrest _ Hready) as (a & db' & Hrun & _).
  exists a, db'. apply try_except_Ok200.
  rewrite (bind_returned _ _ _ _ _ Hensure). exact Hrun.
Qed.

End Ready.

Ltac ready :=
  repeat first
    [ apply returns_ready_ret
    | apply returns_ready_record_scan
    | apply returns_ready_record_phishing_attempt
    | apply returns_ready_record_chat_turn
    | apply returns_ready_when
    | apply returns_ready_if_result; intros ?
    | apply returns_ready_if_result_and; intros ? ?
    | apply returns_ready_bind; [|intros ?] ].

(** With a well-formed session id and no outage of the store, the text, url
    and logo handlers return a response. *)
Lemma analyze_text_returns workflow request db :
  treq_session_id request <> "" -> (forall t, reachable db t = true) ->
  exists resp db', analyze_text workflow request db = (Ok200 resp, db').
Proof.
  intros Hid Hup. apply try_except_returns; [exact Hid|exact Hup|].
  unfold Repository.save_text_scan, Repository.save_phishing_attempt. ready.
Qed.

Lemma analyze_url_returns workflow request db :
  ureq_session_id request <> "" -> (forall t, reachable db t = true) ->
  exists resp db', analyze_url workflow request db = (Ok200 resp, db').
Proof.
  intros Hid Hup. apply try_except_returns; [exact Hid|exact Hup|].
  unfold Repository.save_url_scan, Repository.save_phishing_attempt. ready.
Qed.

Lemma analyze_logo_returns workflow file session_id db :
  session_id <> "" -> (forall t, reachable db t = true) ->
  is_Some (decoded file) ->
  exists resp db',
    analyze_logo workflow file session_id db = (Ok200 resp, db').
Proof.
  intros Hid Hup [image Himage].
  apply try_except_returns; [exact Hid|exact Hup|].
  unfold Image_open. rewrite Himage.
  unfold Repository.save_logo_scan, Repository.save_phishing_attempt. ready.
Qed.

(** So do the multi-input handler and the chat handler, when the uploaded
    file, if any, is an image. *)
Lemma analyze_all_returns workflow text url file session_id db :
  session_id <> "" -> (forall t, reachable db t = true) ->
  (forall f, file = Some f -> is_Some (decoded f)) ->
  exists resp db',
    analyze_all workflow text url file session_id db = (Ok200 resp, db').
Proof.
  intros Hid Hup Hfile.
  apply try_except_returns; [exact Hid|exact Hup|].
  apply returns_ready_bind; [apply returns_ready_prepare_image, Hfile|].
  intros image.
  unfold Repository.save_logo_scan, Repository.save_text_scan,
    Repository.save_url_scan, Repository.save_phishing_attempt. ready.
Qed.

Lemma chat_returns workflow message url file session_id db :
  session_id <> "" -> (forall t, reachable db t = true) ->
  (forall f, file = Some f -> is_Some (decoded f)) ->
  exists resp db',
    chat workflow message url file session_id db = (Ok200 resp, db').
Proof.
  intros Hid Hup Hfile.
  apply try_except_returns; [exact Hid|exact Hup|].
  apply returns_ready_bind; [apply returns_ready_prepare_image, Hfile|].
  intros image.
  unfold Repository.save_logo_scan, Repository.save_text_scan,
    Repository.save_url_scan, Repository.save_message. ready.
Qed.

(** * The fusion rule, through the handlers *)

Lemma clamp01_min_max q : (clamp01 q == Qmin 1 (Qmax 0 q))%Q.
Proof.
  unfold clamp01. destruct (Qle_bool q 0) eqn:E0.
  - apply Qle_bool_iff in E0.
    pose proof (Q.max_l 0 q E0) as Hmax. set (X := Qmax 0 q) in *.
    assert (HX : (X <= 1)%Q) by lra.
    pose proof (Q.min_r 1 X HX). lra.
  - assert (H0 : (0 < q)%Q).
    { apply Qnot_le_lt. intros H. apply Qle_bool_iff in H. congruence. }
    pose proof (Q.max_r 0 q (Qlt_le_weak _ _ H0)) as Hmax.
    set (X := Qmax 0 q) in *.
    destruct (Qle_bool 1 q) eqn:E1.
    + apply Qle_bool_iff in E1.
      assert (HX : (1 <= X)%Q) by lra.
      pose proof (Q.min_l 1 X HX). lra.
    + assert (H1 : (q < 1)%Q).
      { apply Qnot_le_lt. intros H. apply Qle_bool_iff in H. congruence. }
      assert (HX : (X <= 1)%Q) by lra.
      pose proof (Q.min_r 1 X HX). lra.
Qed.

Lemma contribution_clamped r : (contribution r == clamped_contribution r)%Q.
Proof.
  unfold contribution, clamped_contribution.
  destruct (triggered r); [apply clamp01_min_max|reflexivity].
Qed.

(** The engine's risk score is the noisy-OR of the clamped contributions,
    whatever the confidences are. *)
Lemma noisy_or_clamped rs :
  (noisy_or (map contribution rs)
   == 1 - Qprod (map (fun r => 1 - clamped_contribution r) rs))%Q.
Proof.
  unfold noisy_or, Qprod.
  apply Qplus_comp; [reflexivity|]. apply Qopp_comp.
  induction rs as [|r rs IH]; simpl; [reflexivity|].
  rewrite IH, (contribution_clamped r). reflexivity.
Qed.

Lemma spec_workflow_fused_clamped ad text url image session_id resp :
  let m := dispatch ad text url image in
  copies_fusion (spec_analyze_sync ad text url image session_id) resp ->
  entries m <> [] ->
  fused_by_clamped_noisy_or m resp /\
  (confidences_in_range m -> fused_by_noisy_or m resp).
Proof.
  intros m Hcopy Hne. split.
  - destruct Hcopy as (Hd & Hr & _). unfold fused_by_clamped_noisy_or.
    unfold spec_analyze_sync in Hd, Hr. fold m in Hd, Hr.
    unfold fuse in Hd, Hr.
    destruct (entries m) as [|r rs] eqn:Em; [congruence|].
    cbn [final_decision risk_score default] in Hd, Hr. unfold id in Hd, Hr.
    rewrite Hd, Hr. split; [apply noisy_or_clamped|].
    apply decision_of_thresholds.
  - intros Hrange.
    exact (spec_workflow_fused ad text url image session_id resp
             Hcopy Hne Hrange).
Qed.

(** C1, as the fusion engine has it.  Every analyze call (text, logo, url
    or all) that returns for a mapping of modality results that is not empty
    carries the noisy-OR [1 - Π(1 - c_i)], with [c_i] the confidence of a
    triggered modality clamped to [0,1] and 0 otherwise, so that [c_i] is
    the confidence itself whenever the confidences lie in [0,1]; the
    decision follows the thresholds: below 0.3 safe, from 0.3 and below 0.7
    suspicious, from 0.7 dangerous.  And the call does return when the
    session id is not empty, the store has no outage and the upload, if
    any, is an image. *)
Theorem analyze_risk_score_is_clamped_noisy_or ad logo text url :
  let workflow := spec_workflow ad logo text url in
  (forall request db,
      let m := dispatch ad (Some (treq_text request)) None None in
      (forall resp db',
          analyze_text workflow request db = (Ok200 resp, db') ->
          entries m <> [] ->
          fused_by_clamped_noisy_or m resp /\
          (confidences_in_range m -> fused_by_noisy_or m resp)) /\
      (treq_session_id request <> "" ->
       (forall t, reachable db t = true) ->
       exists resp db',
         analyze_text workflow request db = (Ok200 resp, db'))) /\
  (forall file session_id db,
      let m := dispatch ad None None (decoded file) in
      (forall resp db',
          analyze_logo workflow file session_id db = (Ok200 resp, db') ->
          entries m <> [] ->
          fused_by_clamped_noisy_or m resp /\
          (confidences_in_range m -> fused_by_noisy_or m resp)) /\
      (session_id <> "" ->
       (forall t, reachable db t = true) ->
       is_Some (decoded file) ->
       exists resp db',
         analyze_logo workflow file session_id db = (Ok200 resp, db'))) /\
  (forall request db,
      let m := dispatch ad None (Some (ureq_url request)) None in
      (forall resp db',
          analyze_url workflow request db = (Ok200 resp, db') ->
          entries m <> [] ->
          fused_by_clamped_noisy_or m resp /\
          (confidences_in_range m -> fused_by_noisy_or m resp)) /\
      (ureq_session_id request <> "" ->
       (forall t, reachable db t = true) ->
       exists resp db',
         analyze_url workflow request db = (Ok200 resp, db'))) /\
  (forall text url file session_id db,
      let m := dispatch ad text url (file ≫= decoded) in
      (forall resp db',
          analyze_all workflow text url file session_id db
          = (Ok200 resp, db') ->
          entries m <> [] ->
          fused_by_clamped_noisy_or m resp /\
          (confidences_in_range m -> fused_by_noisy_or m resp)) /\
      (session_id <> "" ->
       (forall t, reachable db t = true) ->
       (forall f, file = Some f -> is_Some (decoded f)) ->
       exists resp db',
         analyze_all workflow text url file session_id db
         = (Ok200 resp, db'))).
Proof.
  cbv zeta. split; [|split; [|split]].
  - intros request db. split.
    + intros resp db' Hrun%analyze_text_response.
      exact (spec_workflow_fused_clamped _ _ _ _ _ _ Hrun).
    + intros Hid Hup. apply analyze_text_returns; assumption.
  - intros file session_id db. split.
    + intros resp db' Hrun%analyze_logo_response.
      exact (spec_workflow_fused_clamped _ _ _ _ _ _ Hrun).
    + intros Hid Hup Hfile. apply analyze_logo_returns; assumption.
  - intros request db. split.
    + intros resp db' Hrun%analyze_url_response.
      exact (spec_workflow_fused_clamped _ _ _ _ _ _ Hrun).
    + intros Hid Hup. apply analyze_url_returns; assumption.
  - intros text0 url0 file session_id db. split.
    + intros resp db' Hrun%analyze_all_response.
      exact (spec_workflow_fused_clamped _ _ _ _ _ _ Hrun).
    + intros Hid Hup Hfile. apply analyze_all_returns; assumption.
Qed.

Lemma scenario_A_in_range :
  forall text url image,
    confidences_in_range (dispatch scenario_A_adapters text url image).
Proof.
  intros [t|] [u|] [i|]; repeat constructor; discriminate.
Qed.

Lemma analyze_risk_score_is_clamped_noisy_or_witness :
  "s1" <> "" /\
  (forall t, reachable empty_db t = true) /\
  (exists resp db',
      analyze_text scenario_A_workflow scenario_A_request empty_db
      = (Ok200 resp, db') /\
      fused_by_noisy_or
        (dispatch scenario_A_adapters (Some "Send me your password") None None)
        resp) /\
  (exists resp db',
      analyze_logo scenario_A_workflow logo_upload "s1" empty_db
      = (Ok200 resp, db') /\
      fused_by_noisy_or
        (dispatch scenario_A_adapters None None (decoded logo_upload)) resp) /\
  (exists resp db',
      analyze_url scenario_A_workflow sample_url_request empty_db
      = (Ok200 resp, db') /\
      fused_by_noisy_or
        (dispatch scenario_A_adapters None
           (Some "http://examp1e.test/login") None) resp) /\
  (exists resp db',
      analyze_all scenario_A_workflow (Some "Send me your password")
        (Some "http://examp1e.test/login") (Some logo_upload) "s1" empty_db
      = (Ok200 resp, db') /\
      fused_by_noisy_or
        (dispatch scenario_A_adapters (Some "Send me your password")
           (Some "http://examp1e.test/login") (decoded logo_upload)) resp).
Proof.
  assert (Hid : "s1" <> "") by discriminate.
  assert (Hup : forall t, reachable empty_db t = true) by reflexivity.
  pose proof (analyze_risk_score_is_clamped_noisy_or scenario_A_adapters
                loaded_agent loaded_agent loaded_agent)
    as (Htext & Hlogo & Hurl & Hall).
  split; [exact Hid|]. split; [exact Hup|].
  split; [|split; [|split]].
  - destruct (Htext scenario_A_request empty_db) as [Hfused Hreturns].
    destruct (Hreturns Hid Hup) as (resp & db' & Hrun).
    exists resp, db'. split; [exact Hrun|].
    apply (Hfused resp db' Hrun); [discriminate|apply scenario_A_in_range].
  - destruct (Hlogo logo_upload "s1" empty_db) as [Hfused Hreturns].
    destruct (Hreturns Hid Hup) as (resp & db' & Hrun);
      [eexists; reflexivity|].
    exists resp, db'. split; [exact Hrun|].
    apply (Hfused resp db' Hrun); [discriminate|apply scenario_A_in_range].
  - destruct (Hurl sample_url_request empty_db) as [Hfused Hreturns].
    destruct (Hreturns Hid Hup) as (resp & db' & Hrun).
    exists resp, db'. split; [exact Hrun|].
    apply (Hfused resp db' Hrun); [discriminate|apply scenario_A_in_range].
  - destruct (Hall (Some "Send me your password")
                (Some "http://examp1e.test/login") (Some logo_upload) "s1"
                empty_db) as [Hfused Hreturns].
    destruct (Hreturns Hid Hup) as (resp & db' & Hrun).
    { intros f [= <-]. eexists. reflexivity. }
    exists resp, db'. split; [exact Hrun|].
    apply (Hfused resp db' Hrun); [discriminate|apply scenario_A_in_range].
Defined.

(** The claim with the confidences as they come fails when an adapter
    reports a confidence outside [0,1]: for a triggered text result with
    confidence 1.5 the engine clamps, the risk score is 1, and
    [1 - (1 - 1.5)] is 1.5. *)
Lemma risk_is_stated_noisy_or_counterexample :
  ~ risk_is_stated_noisy_or over_confident_mapping over_confident_run.
Proof.
  intros Hclaim.
  assert (Hrun : over_confident_run.1
                 = Ok200 (body_or no_response over_confident_run.1))
    by (vm_compute; reflexivity).
  destruct (Hclaim _ Hrun) as [Hrisk _]; [discriminate|].
  vm_compute in Hrisk. discriminate Hrisk.
Qed.

(** * ScanRecords of the handlers *)

Lemma new_scans_app db db' (l : list ScanRecord) :
  scans db' = (scans db ++ l)%list -> new_scans db db' = l.
Proof. unfold new_scans. intros ->. apply drop_app_length. Qed.

Lemma scans_added_same db db' :
  scans db' = scans db -> scans_added db db' [].
Proof. intros Hs. exists []. rewrite Hs, app_nil_r. split; reflexivity. Qed.

Lemma scans_added_trans db db1 db2 k1 k2 :
  scans_added db db1 k1 -> scans_added db1 db2 k2 ->
  scans_added db db2 (k1 ++ k2)%list.
Proof.
  intros (l1 & H1 & <-) (l2 & H2 & <-). exists (l1 ++ l2)%list.
  rewrite H2, H1, <- app_assoc, map_app. split; reflexivity.
Qed.

Lemma scans_added_keys db db' keys :
  scans_added db db' keys -> map scan_key (new_scans db db') = keys.
Proof. intros (l & Hl & <-). rewrite (new_scans_app _ _ _ Hl). reflexivity. Qed.

(** A guarded scan adds the scan its guard lets through, and nothing
    else. *)
Lemma on_return_guarded_scan_log o c sid md input db
    (Q : unit -> Db -> Prop) :
  (forall db1, scans_added db db1 (expected_scan md input o c) -> Q tt db1) ->
  on_return (if_result o c (record_scan sid md input)) db Q.
Proof.
  intros HQ. apply on_return_if_result.
  - intros d -> Hd Hc. apply on_return_record_scan. intros _ _.
    apply HQ. unfold expected_scan. rewrite Hd, Hc.
    eexists. split; reflexivity.
  - intros Hskip. apply HQ. unfold expected_scan.
    destruct o as [d|]; [|apply scans_added_same; reflexivity].
    simpl in Hskip. rewrite Hskip. apply scans_added_same. reflexivity.
Qed.

Lemma on_return_guarded_scan_and_log {I} o (x : option I) c sid md
    (input : I -> string) db (Q : unit -> Db -> Prop) :
  (forall db1, scans_added db db1 (expected_scan_and md x c input o) ->
               Q tt db1) ->
  on_return (if_result_and o x c (fun i => record_scan sid md (input i))) db Q.
Proof.
  intros HQ. destruct x as [i|]; simpl.
  - apply on_return_guarded_scan_log, HQ.
  - apply on_return_ret, HQ, scans_added_same. reflexivity.
Qed.

(** After the session is ensured: the scan and the alarm of a
    single-modality handler, with the scans as postcondition. *)
Ltac scan_then_alarm_log :=
  apply on_return_bind, on_return_if_result;
  [ intros d -> Hd _; apply on_return_bind, on_return_record_scan;
    intros _ _; apply on_return_when; intros Hflag;
    [ apply on_return_record_phishing_attempt; intros _ | ];
    apply on_return_ret, scans_added_keys;
    unfold expected_scan; rewrite Hd; (eexists; split; reflexivity)
  | intros Hskip; apply on_return_ret, scans_added_keys;
    unfold expected_scan;
    match goal with
    | |- context [match ?o with Some _ => _ | None => _ end] =>
        destruct o as [d|]; [|apply scans_added_same; reflexivity]
    end;
    simpl in Hskip; rewrite Hskip; apply scans_added_same; reflexivity ].

Lemma analyze_text_scans workflow request db resp db' :
  analyze_text workflow request db = (Ok200 resp, db') ->
  map scan_key (new_scans db db') =
    expected_scan Text (treq_text request)
      (text_result (analyze_sync workflow (Some (treq_text request)) None
                      None (treq_session_id request))) true.
Proof.
  intros Hrun%try_except_Ok200. revert resp db' Hrun.
  change (on_return (analyze_text_body workflow request) db
            (fun _ db' => map scan_key (new_scans db db') =
               expected_scan Text (treq_text request)
                 (text_result (analyze_sync workflow
                                 (Some (treq_text request)) None None
                                 (treq_session_id request))) true)).
  unfold analyze_text_body.
  apply on_return_bind, on_return_ensure_session. intros _.
  scan_then_alarm_log.
Qed.

Lemma analyze_logo_scans workflow file session_id db resp db' :
  analyze_logo workflow file session_id db = (Ok200 resp, db') ->
  map scan_key (new_scans db db') =
    expected_scan Logo (filename file)
      (logo_result (analyze_sync workflow None None (decoded file)
                      session_id)) true.
Proof.
  intros Hrun%try_except_Ok200. revert resp db' Hrun.
  change (on_return (analyze_logo_body workflow file session_id) db
            (fun _ db' => map scan_key (new_scans db db') =
               expected_scan Logo (filename file)
                 (logo_result (analyze_sync workflow None None
                                 (decoded file) session_id)) true)).
  unfold analyze_logo_body.
  apply on_return_bind, on_return_ensure_session. intros _.
  apply on_return_bind, on_return_Image_open. intros image ->.
  scan_then_alarm_log.
Qed.

Lemma analyze_url_scans workflow request db resp db' :
  analyze_url workflow request db = (Ok200 resp, db') ->
  map scan_key (new_scans db db') =
    expected_scan Url (ureq_url request)
      (url_result (analyze_sync workflow None (Some (ureq_url request))
                     None (ureq_session_id request))) true.
Proof.
  intros Hrun%try_except_Ok200. revert resp db' Hrun.
  change (on_return (analyze_url_body workflow request) db
            (fun _ db' => map scan_key (new_scans db db') =
               expected_scan Url (ureq_url request)
                 (url_result (analyze_sync workflow None
                                (Some (ureq_url request)) None
                                (ureq_session_id request))) true)).
  unfold analyze_url_body.
  apply on_return_bind, on_return_ensure_session. intros _.
  scan_then_alarm_log.
Qed.

(** X1. A single-modality analyze call that returns writes exactly one
    ScanRecord, of its own modality, with the analysed text, the file name or
    the URL as input reference and the modality's result dict as it came,
    when that result is a non-empty dict; it writes no ScanRecord when the
    result is missing, [None] or empty. *)
Theorem single_modality_scan_written workflow :
  (forall request db resp db',
      analyze_text workflow request db = (Ok200 resp, db') ->
      map scan_key (new_scans db db') =
        expected_scan Text (treq_text request)
          (text_result (analyze_sync workflow (Some (treq_text request)) None
                          None (treq_session_id request))) true) /\
  (forall file session_id db resp db',
      analyze_logo workflow file session_id db = (Ok200 resp, db') ->
      map scan_key (new_scans db db') =
        expected_scan Logo (filename file)
          (logo_result (analyze_sync workflow None None (decoded file)
                          session_id)) true) /\
  (forall request db resp db',
      analyze_url workflow request db = (Ok200 resp, db') ->
      map scan_key (new_scans db db') =
        expected_scan Url (ureq_url request)
          (url_result (analyze_sync workflow None (Some (ureq_url request))
                         None (ureq_session_id request))) true).
Proof.
  split; [|split].
  - intros request db resp db'. apply analyze_text_scans.
  - intros file session_id db resp db'. apply analyze_logo_scans.
  - intros request db resp db'. apply analyze_url_scans.
Qed.

Lemma single_modality_scan_written_witness :
  scenario_A_run
  = (Ok200 (body_or no_response scenario_A_run.1), scenario_A_run.2) /\
  map scan_key (new_scans empty_db scenario_A_run.2) =
    [(Text, "Send me your password",
      native Text (mkModalityResult true (9 # 10) "asks for a password"))].
Proof.
  assert (Hrun : scenario_A_run
                 = (Ok200 (body_or no_response scenario_A_run.1),
                    scenario_A_run.2)) by (vm_compute; reflexivity).
  split; [exact Hrun|].
  exact (proj1 (single_modality_scan_written scenario_A_workflow)
           scenario_A_request empty_db _ _ Hrun).
Defined.

(** X2. A multi-input analyze call that returns writes its ScanRecords in
    the order logo, text, url, and one for a modality only when the result
    of that modality is a non-empty dict and the input itself is truthy: a
    file was uploaded, the text or the URL is a non-empty string.  A result
    for an empty text or URL is returned to the caller but not stored. *)
Theorem analyze_all_scans_written workflow text url file session_id db
    resp db' :
  analyze_all workflow text url file session_id db = (Ok200 resp, db') ->
  let result := analyze_sync workflow text url (file ≫= decoded) session_id in
  map scan_key (new_scans db db') =
    (expected_scan_and Logo file (fun _ => true) filename (logo_result result)
     ++ expected_scan_and Text text str_truthy id (text_result result)
     ++ expected_scan_and Url url str_truthy id (url_result result))%list.
Proof.
  intros Hrun%try_except_Ok200. revert resp db' Hrun. cbv zeta.
  change (on_return (analyze_all_body workflow text url file session_id) db
            (fun _ db' =>
               map scan_key (new_scans db db') =
                 (expected_scan_and Logo file (fun _ => true) filename
                    (logo_result (analyze_sync workflow text url
                                    (file ≫= decoded) session_id))
                  ++ expected_scan_and Text text str_truthy id
                       (text_result (analyze_sync workflow text url
                                       (file ≫= decoded) session_id))
                  ++ expected_scan_and Url url str_truthy id
                       (url_result (analyze_sync workflow text url
                                      (file ≫= decoded) session_id)))%list)).
  unfold analyze_all_body, Repository.save_logo_scan,
    Repository.save_text_scan, Repository.save_url_scan.
  apply on_return_bind, on_return_ensure_session. intros _.
  apply on_return_bind, on_return_prepare_image. intros image <-.
  set (result := analyze_sync workflow text url (file ≫= decoded) session_id).
  apply on_return_bind, on_return_guarded_scan_and_log. intros db1 H1.
  apply on_return_bind,
    (on_return_guarded_scan_and_log _ text str_truthy _ Text id).
  intros db2 H2.
  apply on_return_bind,
    (on_return_guarded_scan_and_log _ url str_truthy _ Url id).
  intros db3 H3.
  assert (H03 : scans_added db db3
                  (expected_scan_and Logo file (fun _ => true) filename
                     (logo_result result)
                   ++ expected_scan_and Text text str_truthy id
                        (text_result result)
                   ++ expected_scan_and Url url str_truthy id
                        (url_result result))%list).
  { eapply scans_added_trans; [|eapply scans_added_trans; eassumption].
    destruct H1 as (l & Hl & Hk). exists l. split; [exact Hl|exact Hk]. }
  apply on_return_bind, on_return_when.
  - intros _. apply on_return_record_phishing_attempt. intros _.
    apply on_return_ret, scans_added_keys.
    destruct H03 as (l & Hl & Hk). exists l. split; [exact Hl|exact Hk].
  - intros _. apply on_return_ret, scans_added_keys, H03.
Qed.

Lemma analyze_all_scans_written_witness :
  empty_text_run
  = (Ok200 (body_or no_response empty_text_run.1), empty_text_run.2) /\
  map scan_key (new_scans empty_db empty_text_run.2) =
    [(Logo, "logo.png", native Logo benign);
     (Url, "http://example.test/", native Url benign)] /\
  resp_text_result (body_or no_response empty_text_run.1)
  = Some (native Text benign).
Proof.
  assert (Hrun : empty_text_run
                 = (Ok200 (body_or no_response empty_text_run.1),
                    empty_text_run.2)) by (vm_compute; reflexivity).
  split; [exact Hrun|]. split; [|vm_compute; reflexivity].
  exact (analyze_all_scans_written
           (sample_workflow (Some benign) (Some benign) (Some benign))
           (Some "") (Some "http://example.test/") (Some logo_upload) "s1"
           empty_db _ _ Hrun).
Defined.

(** X3. A chat call that returns writes its ScanRecords in the order logo,
    text, url.  The text scan has the message as input reference and is
    written whenever the text result is a non-empty dict, also for an empty
    message; the logo scan needs an uploaded file and the url scan a
    non-empty URL, each with a non-empty result. *)
Theorem chat_scans_written workflow message url file session_id db resp db' :
  chat workflow message url file session_id db = (Ok200 resp, db') ->
  let result :=
    analyze_sync workflow (Some message) url (file ≫= decoded) session_id in
  map scan_key (new_scans db db') =
    (expected_scan_and Logo file (fun _ => true) filename (logo_result result)
     ++ expected_scan Text message (text_result result) true
     ++ expected_scan_and Url url str_truthy id (url_result result))%list.
Proof.
  intros Hrun%try_except_Ok200. revert resp db' Hrun. cbv zeta.
  change (on_return (chat_body workflow message url file session_id) db
            (fun _ db' =>
               map scan_key (new_scans db db') =
                 (expected_scan_and Logo file (fun _ => true) filename
                    (logo_result (analyze_sync workflow (Some message) url
                                    (file ≫= decoded) session_id))
                  ++ expected_scan Text message
                       (text_result (analyze_sync workflow (Some message) url
                                       (file ≫= decoded) session_id)) true
                  ++ expected_scan_and Url url str_truthy id
                       (url_result (analyze_sync workflow (Some message) url
                                      (file ≫= decoded) session_id)))%list)).
  unfold chat_body, Repository.save_logo_scan, Repository.save_text_scan,
    Repository.save_url_scan, Repository.save_message.
  apply on_return_bind, on_return_ensure_session. intros _.
  apply on_return_bind, on_return_prepare_image. intros image <-.
  set (result := analyze_sync workflow (Some message) url (file ≫= decoded)
                   session_id).
  apply on_return_bind, on_return_record_chat_turn. intros _.
  set (db0 := add_chat _ _ _ _).
  assert (H0 : scans_added db db0 []) by (apply scans_added_same; reflexivity).
  apply on_return_bind, on_return_guarded_scan_and_log. intros db1 H1.
  apply on_return_bind, on_return_guarded_scan_log. intros db2 H2.
  apply on_return_bind,
    (on_return_guarded_scan_and_log _ url str_truthy _ Url id).
  intros db3 H3.
  apply on_return_ret, scans_added_keys.
  apply (scans_added_trans _ _ _ [] _ H0).
  eapply scans_added_trans; [|eapply scans_added_trans; eassumption].
  destruct H1 as (l & Hl & Hk). exists l. split; [exact Hl|exact Hk].
Qed.

Lemma chat_scans_written_witness :
  empty_message_run
  = (Ok200 (body_or no_chat_response empty_message_run.1),
     empty_message_run.2) /\
  map scan_key (new_scans empty_db empty_message_run.2) =
    [(Text, "", native Text benign)].
Proof.
  assert (Hrun : empty_message_run
                 = (Ok200 (body_or no_chat_response empty_message_run.1),
                    empty_message_run.2)) by (vm_compute; reflexivity).
  split; [exact Hrun|].
  exact (chat_scans_written
           (sample_workflow (Some benign) (Some benign) (Some benign))
           "" None None "s1" empty_db _ _ Hrun).
Defined.

(** * What the chat handler writes besides scans *)

(** X4. A chat call that returns appends exactly one ChatTurn, which
    carries the session id, the user's message and the very answer sent
    back, and it never writes a PhishingAttempt, whatever the decision. *)
Theorem chat_one_turn_and_no_attempt workflow message url file session_id
    db resp db' :
  chat workflow message url file session_id db = (Ok200 resp, db') ->
  (exists turn,
      new_chats db db' = [turn] /\
      chat_session turn = session_id /\
      chat_user_message turn = message /\
      chat_bot_response turn = cresp_message resp /\
      chat_id turn = S (length (chats db))) /\
  new_attempts db db' = [].
Proof.
  intros (_ & Hchats & Hattempts)%chat_records_composed_message.
  split.
  - eexists. split.
    + unfold new_chats. rewrite Hchats. apply drop_app_length.
    + repeat split.
  - apply new_attempts_same, Hattempts.
Qed.

Lemma chat_one_turn_and_no_attempt_witness :
  scenario_A_chat_run
  = (Ok200 (body_or no_chat_response scenario_A_chat_run.1),
     scenario_A_chat_run.2) /\
  resp_final_decision
    (cresp_analysis (body_or no_chat_response scenario_A_chat_run.1))
  = "dangerous" /\
  new_attempts empty_db scenario_A_chat_run.2 = [].
Proof.
  assert (Hrun : scenario_A_chat_run
                 = (Ok200 (body_or no_chat_response scenario_A_chat_run.1),
                    scenario_A_chat_run.2)) by (vm_compute; reflexivity).
  split; [exact Hrun|]. split; [vm_compute; reflexivity|].
  exact (proj2 (chat_one_turn_and_no_attempt scenario_A_workflow
                  "Send me your password" None None "s1" empty_db _ _ Hrun)).
Defined.

(** * The aggregate PhishingAttempt *)

(** X5. When a multi-input analyze call returns with a suspicious or
    dangerous decision, the aggregate PhishingAttempt has the content
    "Text: .., URL: .., Image: .." (with "None" for an input that is
    missing), the explanation as reason and the risk score as confidence; a
    result without explanation gives the reason "Multiple indicators
    detected", although the response then carries the empty explanation, and
    a result without risk score gives the confidence 0.0. *)
Theorem analyze_all_combined_attempt_record workflow text url file session_id
    db resp db' :
  analyze_all workflow text url file session_id db = (Ok200 resp, db') ->
  escalated (resp_final_decision resp) = true ->
  let result := analyze_sync workflow text url (file ≫= decoded) session_id in
  exists t,
    new_attempts db db' =
      [mkAttempt session_id "combined" (combined_content text url file)
         (PStr (default "Multiple indicators detected" (explanation result)))
         (PFloat (default 0%Q (risk_score result))) t] /\
    resp_explanation resp = default "" (explanation result) /\
    resp_risk_score resp = default 0%Q (risk_score result).
Proof.
  intros Hrun%try_except_Ok200. revert resp db' Hrun. cbv zeta.
  change (on_return (analyze_all_body workflow text url file session_id) db
            (fun resp db' =>
               escalated (resp_final_decision resp) = true ->
               exists t,
                 new_attempts db db' =
                   [mkAttempt session_id "combined"
                      (combined_content text url file)
                      (PStr (default "Multiple indicators detected"
                               (explanation
                                  (analyze_sync workflow text url
                                     (file ≫= decoded) session_id))))
                      (PFloat (default 0%Q
                                 (risk_score
                                    (analyze_sync workflow text url
                                       (file ≫= decoded) session_id)))) t] /\
                 resp_explanation resp =
                   default "" (explanation
                                 (analyze_sync workflow text url
                                    (file ≫= decoded) session_id)) /\
                 resp_risk_score resp =
                   default 0%Q (risk_score
                                  (analyze_sync workflow text url
                                     (file ≫= decoded) session_id)))).
  unfold analyze_all_body, Repository.save_logo_scan,
    Repository.save_text_scan, Repository.save_url_scan.
  apply on_return_bind, on_return_ensure_session. intros _.
  apply on_return_bind, on_return_prepare_image. intros image <-.
  set (result := analyze_sync workflow text url (file ≫= decoded) session_id).
  apply on_return_bind, on_return_guarded_scan_and. intros db1 Ha1 _.
  apply on_return_bind, on_return_guarded_scan_and. intros db2 Ha2 _.
  apply on_return_bind, on_return_guarded_scan_and. intros db3 Ha3 _.
  assert (Hdb3 : attempts db3 = attempts db)
    by (rewrite Ha3, Ha2, Ha1; reflexivity).
  apply on_return_bind, on_return_when.
  - intros _. apply on_return_record_phishing_attempt. intros _.
    apply on_return_ret. intros _. exists (clock db3). split.
    + apply new_attempts_app. cbn [attempts add_attempt]. rewrite Hdb3.
      reflexivity.
    + split; reflexivity.
  - intros Hesc. apply on_return_ret. cbn [resp_final_decision].
    rewrite escalated_default_unknown, Hesc. discriminate.
Qed.

Lemma analyze_all_combined_attempt_record_witness :
  bare_dangerous_run
  = (Ok200 (body_or no_response bare_dangerous_run.1), bare_dangerous_run.2) /\
  exists t,
    new_attempts empty_db bare_dangerous_run.2 =
      [mkAttempt "s1" "combined"
         "Text: Your account is locked, URL: None, Image: None"
         (PStr "Multiple indicators detected") (PFloat 0) t] /\
    resp_explanation (body_or no_response bare_dangerous_run.1) = "" /\
    resp_risk_score (body_or no_response bare_dangerous_run.1) = 0%Q.
Proof.
  assert (Hrun : bare_dangerous_run
                 = (Ok200 (body_or no_response bare_dangerous_run.1),
                    bare_dangerous_run.2)) by (vm_compute; reflexivity).
  split; [exact Hrun|].
  apply (analyze_all_combined_attempt_record
           (constant_workflow
              (mkResult None None None (Some "dangerous") None None))
           (Some "Your account is locked") None None "s1" empty_db _ _ Hrun).
  vm_compute. reflexivity.
Defined.

(** * The PhishingAttempt of the text and logo handlers *)

Lemma expected_attempts_raised md source dflt sid content d t :
  d <> ∅ -> flag_raised md d = true ->
  expected_attempts md source dflt sid content (Some d) t =
    [mkAttempt sid source content
       (default (PStr dflt) (d !! "reason"))
       (default (PFloat 0) (d !! "confidence")) t].
Proof.
  intros Hne Hflag. unfold expected_attempts, dict_truthy.
  rewrite bool_decide_eq_false_2 by exact Hne. rewrite Hflag. reflexivity.
Qed.

Lemma expected_attempts_not_raised md source dflt sid content d t :
  flag_raised md d = false ->
  expected_attempts md source dflt sid content (Some d) t = [].
Proof.
  intros Hflag. unfold expected_attempts. rewrite Hflag, andb_false_r.
  reflexivity.
Qed.

(** X6. On a text call that returns with a non-empty text result whose
    [is_fraud] is truthy, and on a logo call that returns with a non-empty
    logo result whose [is_suspicious] is truthy, the PhishingAttempt written
    has the analysed text, respectively the file name, as content and the
    values under [reason] and [confidence] as they are; the defaults
    ("Fraudulent text detected", "Suspicious logo detected", 0.0) stand in
    only for a missing key, not for a key that holds [None].  A flag that is
    missing or falsy writes no PhishingAttempt. *)
Theorem text_and_logo_attempt_record workflow :
  (forall request db resp db' d,
      analyze_text workflow request db = (Ok200 resp, db') ->
      text_result (analyze_sync workflow (Some (treq_text request)) None None
                     (treq_session_id request)) = Some d ->
      (d <> ∅ -> truthy (dict_get d "is_fraud") = true ->
       new_attempts db db' =
         [mkAttempt (treq_session_id request) "text" (treq_text request)
            (default (PStr "Fraudulent text detected") (d !! "reason"))
            (default (PFloat 0) (d !! "confidence")) (S (S (clock db)))]) /\
      (truthy (dict_get d "is_fraud") = false -> new_attempts db db' = [])) /\
  (forall file session_id db resp db' d,
      analyze_logo workflow file session_id db = (Ok200 resp, db') ->
      logo_result (analyze_sync workflow None None (decoded file) session_id)
      = Some d ->
      (d <> ∅ -> truthy (dict_get d "is_suspicious") = true ->
       new_attempts db db' =
         [mkAttempt session_id "logo" (filename file)
            (default (PStr "Suspicious logo detected") (d !! "reason"))
            (default (PFloat 0) (d !! "confidence")) (S (S (clock db)))]) /\
      (truthy (dict_get d "is_suspicious") = false ->
       new_attempts db db' = [])).
Proof.
  split.
  - intros request db resp db' d Hrun%analyze_text_attempts Hd.
    rewrite Hd in Hrun. split.
    + intros Hne Hflag. rewrite Hrun.
      apply expected_attempts_raised; assumption.
    + intros Hflag. rewrite Hrun.
      apply expected_attempts_not_raised. exact Hflag.
  - intros file session_id db resp db' d Hrun%analyze_logo_attempts Hd.
    rewrite Hd in Hrun. split.
    + intros Hne Hflag. rewrite Hrun.
      apply expected_attempts_raised; assumption.
    + intros Hflag. rewrite Hrun.
      apply expected_attempts_not_raised. exact Hflag.
Qed.

Lemma text_and_logo_attempt_record_witness :
  none_reason_run
  = (Ok200 (body_or no_response none_reason_run.1), none_reason_run.2) /\
  none_reason_result <> ∅ /\
  truthy (dict_get none_reason_result "is_fraud") = true /\
  new_attempts empty_db none_reason_run.2 =
    [mkAttempt "s1" "text" "Send me your password" PNone (PFloat 0) 2].
Proof.
  assert (Hrun : none_reason_run
                 = (Ok200 (body_or no_response none_reason_run.1),
                    none_reason_run.2)) by (vm_compute; reflexivity).
  assert (Hne : none_reason_result <> ∅) by (vm_compute; discriminate).
  split; [exact Hrun|]. split; [exact Hne|]. split; [reflexivity|].
  exact (proj1 (proj1 (text_and_logo_attempt_record
                         (constant_workflow
                            (mkResult None (Some none_reason_result) None
                               (Some "dangerous") (Some (9 # 10)%Q)
                               (Some ""))))
                  scenario_A_request empty_db _ _ none_reason_result
                  Hrun eq_refl) Hne eq_refl).
Defined.

(** * Uploads that are not images *)

Lemma Image_open_undecodable file db :
  decoded file = None -> Image_open file db = (inl UnidentifiedImage, db).
Proof. unfold Image_open. intros ->. reflexivity. Qed.

Lemma prepare_image_undecodable file db :
  decoded file = None ->
  prepare_image (Some file) db = (inl UnidentifiedImage, db).
Proof.
  intros Hfile. unfold prepare_image.
  apply bind_raised, Image_open_undecodable, Hfile.
Qed.

(** X7. An upload whose bytes are not an image makes the logo handler, the
    multi-input handler and the chat handler answer HTTP 500 with the
    decoder's error as detail.  The session has been ensured by then, since
    the handlers do that before they open the image; nothing else is
    written: no ScanRecord, no PhishingAttempt and no ChatTurn. *)
Theorem undecodable_upload_rejected workflow file session_id db :
  session_id <> "" ->
  decoded file = None ->
  let failed {A} : http A * Db :=
    (HTTPException 500 (exn_str UnidentifiedImage),
     touch_session session_id db) in
  analyze_logo workflow file session_id db = failed /\
  (forall text url,
      analyze_all workflow text url (Some file) session_id db = failed) /\
  (forall message url,
      chat workflow message url (Some file) session_id db = failed) /\
  scans (touch_session session_id db) = scans db /\
  attempts (touch_session session_id db) = attempts db /\
  chats (touch_session session_id db) = chats db.
Proof.
  intros Hid Hfile. cbv zeta.
  pose proof (ensure_session_nonempty session_id db Hid) as Hensure.
  split; [|split; [|split; [|repeat split]]].
  - apply (try_except_raised _ _ UnidentifiedImage).
    unfold analyze_logo_body, Repository.create_or_update_session.
    rewrite (bind_returned _ _ _ _ _ Hensure).
    apply bind_raised, Image_open_undecodable, Hfile.
  - intros text url. apply (try_except_raised _ _ UnidentifiedImage).
    unfold analyze_all_body, Repository.create_or_update_session.
    rewrite (bind_returned _ _ _ _ _ Hensure).
    apply bind_raised, prepare_image_undecodable, Hfile.
  - intros message url. apply (try_except_raised _ _ UnidentifiedImage).
    unfold chat_body, Repository.create_or_update_session.
    rewrite (bind_returned _ _ _ _ _ Hensure).
    apply bind_raised, prepare_image_undecodable, Hfile.
Qed.

Lemma undecodable_upload_rejected_witness :
  "s1" <> "" /\
  decoded broken_upload = None /\
  analyze_logo scenario_A_workflow broken_upload "s1" empty_db
  = (HTTPException 500 (exn_str UnidentifiedImage),
     touch_session "s1" empty_db).
Proof.
  split; [discriminate|]. split; [reflexivity|].
  apply (undecodable_upload_rejected scenario_A_workflow broken_upload "s1"
           empty_db); [discriminate|reflexivity].
Defined.

(** * The store only grows, and only for the session of the request *)

Lemma extends_for_refl sid db : extends_for sid db db.
Proof.
  repeat split; try (exists []; rewrite app_nil_r; split; [reflexivity|constructor]).
  - intros s Hs. exists s. split; [exact Hs|reflexivity].
  - lia.
Qed.

Lemma extends_for_trans sid db1 db2 db3 :
  extends_for sid db1 db2 -> extends_for sid db2 db3 ->
  extends_for sid db1 db3.
Proof.
  intros (Ho1 & Hs1 & (ls1 & Hls1 & Fs1) & (la1 & Hla1 & Fa1)
          & (lc1 & Hlc1 & Fc1) & Hc1)
         (Ho2 & Hs2 & (ls2 & Hls2 & Fs2) & (la2 & Hla2 & Fa2)
          & (lc2 & Hlc2 & Fc2) & Hc2).
  split; [|split; [|split; [|split; [|split]]]].
  - intros id Hid. rewrite Ho2, Ho1 by exact Hid. reflexivity.
  - intros s Hs. destruct (Hs1 s Hs) as (s' & Hs' & Hcr').
    destruct (Hs2 s' Hs') as (s'' & Hs'' & Hcr'').
    exists s''. split; [exact Hs''|congruence].
  - exists (ls1 ++ ls2)%list. rewrite Hls2, Hls1, <- app_assoc.
    split; [reflexivity|apply Forall_app; split; assumption].
  - exists (la1 ++ la2)%list. rewrite Hla2, Hla1, <- app_assoc.
    split; [reflexivity|apply Forall_app; split; assumption].
  - exists (lc1 ++ lc2)%list. rewrite Hlc2, Hlc1, <- app_assoc.
    split; [reflexivity|apply Forall_app; split; assumption].
  - lia.
Qed.

Ltac log_unchanged :=
  exists []; rewrite app_nil_r; split; [reflexivity|constructor].

Ltac log_one_more :=
  eexists [_]; split; [reflexivity|repeat constructor].

Lemma extends_for_touch_session sid db :
  extends_for sid db (touch_session sid db).
Proof.
  unfold touch_session.
  split; [|split; [|split; [|split; [|split]]]]; cbn.
  - intros id Hid. apply lookup_insert_ne. congruence.
  - intros s ->. rewrite lookup_insert_eq. eexists. split; reflexivity.
  - log_unchanged.
  - log_unchanged.
  - log_unchanged.
  - lia.
Qed.

Lemma extends_for_add_scan sid md input result db :
  extends_for sid db (add_scan sid md input result db).
Proof.
  unfold add_scan.
  split; [|split; [|split; [|split; [|split]]]]; cbn.
  - reflexivity.
  - intros s Hs. exists s. split; [exact Hs|reflexivity].
  - log_one_more.
  - log_unchanged.
  - log_unchanged.
  - lia.
Qed.

Lemma extends_for_add_attempt sid source content rsn conf db :
  extends_for sid db (add_attempt sid source content rsn conf db).
Proof.
  unfold add_attempt.
  split; [|split; [|split; [|split; [|split]]]]; cbn.
  - reflexivity.
  - intros s Hs. exists s. split; [exact Hs|reflexivity].
  - log_unchanged.
  - log_one_more.
  - log_unchanged.
  - lia.
Qed.

Lemma extends_for_add_chat sid user bot db :
  extends_for sid db (add_chat sid user bot db).
Proof.
  unfold add_chat.
  split; [|split; [|split; [|split; [|split]]]]; cbn.
  - reflexivity.
  - intros s Hs. exists s. split; [exact Hs|reflexivity].
  - log_unchanged.
  - log_unchanged.
  - log_one_more.
  - lia.
Qed.

Section Extends.
Context (sid : string).

Lemma extends_store_ret {A} (a : A) : extends_store sid (ret a).
Proof. intros db. apply extends_for_refl. Qed.

Lemma extends_store_raise {A} e : extends_store sid (@raise A e).
Proof. intros db. apply extends_for_refl. Qed.

Lemma extends_store_bind {A B} (m : M A) (k : A -> M B) :
  extends_store sid m -> (forall a, extends_store sid (k a)) ->
  extends_store sid (bind m k).
Proof.
  intros Hm Hk db. unfold bind. specialize (Hm db).
  destruct (m db) as [[e|a] db1]; [exact Hm|].
  eapply extends_for_trans; [exact Hm|apply Hk].
Qed.

Lemma extends_store_when c (body : M unit) :
  extends_store sid body -> extends_store sid (when c body).
Proof. destruct c; [auto|intros _; apply extends_store_ret]. Qed.

Lemma extends_store_if_result o c (body : pydict -> M unit) :
  (forall d, extends_store sid (body d)) ->
  extends_store sid (if_result o c body).
Proof.
  intros Hbody. destruct o as [d|]; simpl.
  - apply extends_store_when, Hbody.
  - apply extends_store_ret.
Qed.

Lemma extends_store_if_result_and {I} o (x : option I) c
    (body : I -> pydict -> M unit) :
  (forall i d, extends_store sid (body i d)) ->
  extends_store sid (if_result_and o x c body).
Proof.
  intros Hbody. destruct x as [i|]; simpl.
  - apply extends_store_if_result, Hbody.
  - apply extends_store_ret.
Qed.

Lemma extends_store_ensure_session : extends_store sid (ensure_session sid).
Proof.
  intros db. unfold ensure_session. destruct (str_truthy sid); cbn.
  - apply extends_for_touch_session.
  - apply extends_for_refl.
Qed.

Lemma extends_store_record_scan md input result :
  extends_store sid (record_scan sid md input result).
Proof.
  intros db. unfold record_scan.
  destruct (sessions db !! sid); [|apply extends_for_refl].
  destruct (reachable db (clock db)); cbn.
  - apply extends_for_add_scan.
  - apply extends_for_refl.
Qed.

Lemma extends_store_record_phishing_attempt source content rsn conf :
  extends_store sid (record_phishing_attempt sid source content rsn conf).
Proof.
  intros db. unfold record_phishing_attempt.
  destruct (sessions db !! sid); cbn.
  - apply extends_for_add_attempt.
  - apply extends_for_refl.
Qed.

Lemma extends_store_record_chat_turn user bot :
  extends_store sid (record_chat_turn sid user bot).
Proof.
  intros db. unfold record_chat_turn.
  destruct (sessions db !! sid); cbn.
  - apply extends_for_add_chat.
  - apply extends_for_refl.
Qed.

Lemma extends_store_Image_open file : extends_store sid (Image_open file).
Proof.
  unfold Image_open. destruct (decoded file).
  - apply extends_store_ret.
  - apply extends_store_raise.
Qed.

Lemma extends_store_prepare_image file :
  extends_store sid (prepare_image file).
Proof.
  unfold prepare_image. destruct file as [f|].
  - apply extends_store_bind; [apply extends_store_Image_open|].
    intros image. apply extends_store_ret.
  - apply extends_store_ret.
Qed.

Lemma extends_store_try_except {A} (m : M A) db :
  extends_store sid m -> extends_for sid db (try_except m db).2.
Proof.
  intros Hm. unfold try_except. specialize (Hm db).
  destruct (m db) as [[e|a] db1]; exact Hm.
Qed.

End Extends.

Ltac extends :=
  repeat first
    [ apply extends_store_ret
    | apply extends_store_ensure_session
    | apply extends_store_record_scan
    | apply extends_store_record_phishing_attempt
    | apply extends_store_record_chat_turn
    | apply extends_store_Image_open
    | apply extends_store_prepare_image
    | apply extends_store_when
    | apply extends_store_if_result; intros ?
    | apply extends_store_if_result_and; intros ? ?
    | apply extends_store_bind; [|intros ?] ].

(** X8. Whatever a handler answers, a response or HTTP 500, the store it
    leaves extends the store it found: the ScanRecords, PhishingAttempts and
    ChatTurns that were there are still there, unchanged and in place; every
    record added carries the session id of the request; no other session is
    touched, a session that existed keeps its creation time, and the clock
    never goes back.  Reading the chat history changes nothing. *)
Theorem handlers_extend_store workflow db :
  (forall request,
      extends_for (treq_session_id request) db
        (analyze_text workflow request db).2) /\
  (forall file session_id,
      extends_for session_id db (analyze_logo workflow file session_id db).2) /\
  (forall request,
      extends_for (ureq_session_id request) db
        (analyze_url workflow request db).2) /\
  (forall text url file session_id,
      extends_for session_id db
        (analyze_all workflow text url file session_id db).2) /\
  (forall message url file session_id,
      extends_for session_id db
        (chat workflow message url file session_id db).2) /\
  (forall session_id limit, (get_chat_history session_id limit db).2 = db).
Proof.
  split; [|split; [|split; [|split; [|split]]]].
  - intros request. apply extends_store_try_except.
    unfold analyze_text_body, Repository.create_or_update_session,
      Repository.save_text_scan, Repository.save_phishing_attempt.
    extends.
  - intros file session_id. apply extends_store_try_except.
    unfold analyze_logo_body, Repository.create_or_update_session,
      Repository.save_logo_scan, Repository.save_phishing_attempt.
    extends.
  - intros request. apply extends_store_try_except.
    unfold analyze_url_body, Repository.create_or_update_session,
      Repository.save_url_scan, Repository.save_phishing_attempt.
    extends.
  - intros text url file session_id. apply extends_store_try_except.
    unfold analyze_all_body, Repository.create_or_update_session,
      Repository.save_logo_scan, Repository.save_text_scan,
      Repository.save_url_scan, Repository.save_phishing_attempt.
    extends.
  - intros message url file session_id. apply extends_store_try_except.
    unfold chat_body, Repository.create_or_update_session,
      Repository.save_logo_scan, Repository.save_text_scan,
      Repository.save_url_scan, Repository.save_message.
    extends.
  - intros session_id limit. reflexivity.
Qed.

(** * Why a request fails *)

Section Outage.
Context (sid : string) (db0 : Db).









End Outage.







Lemma failure_cause_not_unknown_session sid file db status_code :
  ~ failure_cause sid file db status_code (exn_str UnknownSession).
Proof.
  intros (_ & [[_ H]|[[H _]|[H _]]]); discriminate H.
Qed.



(** * The response of the analyze handlers *)

(** X11. The response of a single-modality handler echoes the session id
    and fills only the slot of its own modality, with the result dict as the
    workflow gave it; what the workflow found for other modalities is not
    passed on.  Decision, risk score and explanation are the workflow's, and
    a missing key reads as "unknown", 0.0 and the empty string instead of
    failing.  The multi-input handler fills all three slots. *)
Theorem analyze_response_contents workflow db resp db' :
  (forall request,
      analyze_text workflow request db = (Ok200 resp, db') ->
      resp = response_of Text
               (analyze_sync workflow (Some (treq_text request)) None None
                  (treq_session_id request))
               (treq_session_id request)) /\
  (forall file session_id,
      analyze_logo workflow file session_id db = (Ok200 resp, db') ->
      resp = response_of Logo
               (analyze_sync workflow None None (decoded file) session_id)
               session_id) /\
  (forall request,
      analyze_url workflow request db = (Ok200 resp, db') ->
      resp = response_of Url
               (analyze_sync workflow None (Some (ureq_url request)) None
                  (ureq_session_id request))
               (ureq_session_id request)) /\
  (forall text url file session_id,
      analyze_all workflow text url file session_id db = (Ok200 resp, db') ->
      let result :=
        analyze_sync workflow text url (file ≫= decoded) session_id in
      resp = {| resp_logo_result := logo_result result;
                resp_text_result := text_result result;
                resp_url_result := url_result result;
                resp_final_decision :=
                  default "unknown" (final_decision result);
                resp_risk_score := default 0%Q (risk_score result);
                resp_explanation := default "" (explanation result);
                resp_session_id := session_id |}).
Proof.
  split; [|split; [|split]].
  - intros request Hrun%try_except_Ok200. revert resp db' Hrun.
    change (on_return (analyze_text_body workflow request) db
              (fun resp _ =>
                 resp = response_of Text
                          (analyze_sync workflow (Some (treq_text request))
                             None None (treq_session_id request))
                          (treq_session_id request))).
    unfold analyze_text_body. do 2 skip_step.
    apply on_return_ret. reflexivity.
  - intros file session_id Hrun%try_except_Ok200. revert resp db' Hrun.
    change (on_return (analyze_logo_body workflow file session_id) db
              (fun resp _ =>
                 resp = response_of Logo
                          (analyze_sync workflow None None (decoded file)
                             session_id) session_id)).
    unfold analyze_logo_body. skip_step.
    apply on_return_bind, on_return_Image_open. intros image ->.
    skip_step. apply on_return_ret. reflexivity.
  - intros request Hrun%try_except_Ok200. revert resp db' Hrun.
    change (on_return (analyze_url_body workflow request) db
              (fun resp _ =>
                 resp = response_of Url
                          (analyze_sync workflow None
                             (Some (ureq_url request)) None
                             (ureq_session_id request))
                          (ureq_session_id request))).
    unfold analyze_url_body. do 2 skip_step.
    apply on_return_ret. reflexivity.
  - intros text url file session_id Hrun%try_except_Ok200.
    revert resp db' Hrun. cbv zeta.
    match goal with
    | |- forall resp db', _ -> resp = ?r =>
        change (on_return (analyze_all_body workflow text url file session_id)
                  db (fun resp _ => resp = r))
    end.
    unfold analyze_all_body. skip_step.
    apply on_return_bind, on_return_prepare_image. intros image <-.
    do 4 skip_step. apply on_return_ret. reflexivity.
Qed.

Lemma analyze_response_contents_witness :
  silent_run = (Ok200 (body_or no_response silent_run.1), silent_run.2) /\
  body_or no_response silent_run.1
  = mkAnalysisResponse None None None "unknown" 0 "" "s1".
Proof.
  assert (Hrun : silent_run
                 = (Ok200 (body_or no_response silent_run.1), silent_run.2))
    by (vm_compute; reflexivity).
  split; [exact Hrun|].
  exact (proj1 (analyze_response_contents silent_workflow empty_db _ _)
           scenario_A_request Hrun).
Defined.

(** * The risk score as a percentage *)

Lemma round_half_even_nearest q :
  let n := round_half_even q in
  (inject_Z n - (1 # 2) <= q)%Q /\ (q <= inject_Z n + (1 # 2))%Q /\
  ((2 * (q - inject_Z n) == 1)%Q \/ (2 * (inject_Z n - q) == 1)%Q ->
   Z.even n = true).
Proof.
  cbv zeta. unfold round_half_even.
  pose proof (Qfloor_le q) as Hlo. pose proof (Qlt_floor q) as Hhi.
  rewrite inject_Z_plus in Hhi. change (inject_Z 1) with 1%Q in Hhi.
  destruct (2 * (q - inject_Z (Qfloor q)) ?= 1)%Q eqn:Ecmp.
  - apply Qeq_alt in Ecmp. destruct (Z.even (Qfloor q)) eqn:Eeven.
    + split; [lra|]. split; [lra|]. intros _. exact Eeven.
    + rewrite inject_Z_plus. change (inject_Z 1) with 1%Q.
      split; [lra|]. split; [lra|]. intros _.
      rewrite Z.add_1_r, Z.even_succ, <- Z.negb_even, Eeven. reflexivity.
  - apply Qlt_alt in Ecmp. split; [lra|]. split; [lra|]. intros [H|H]; lra.
  - apply Qgt_alt in Ecmp. rewrite inject_Z_plus. change (inject_Z 1) with 1%Q.
    split; [lra|]. split; [lra|]. intros [H|H]; lra.
Qed.

Lemma round_half_even_bounds q (lo hi : Z) :
  (inject_Z lo <= q)%Q -> (q <= inject_Z hi)%Q ->
  (lo <= round_half_even q <= hi)%Z.
Proof.
  intros Hlo Hhi.
  destruct (round_half_even_nearest q) as (Hn1 & Hn2 & _).
  set (n := round_half_even q) in *.
  split.
  - apply Z.lt_pred_le. rewrite Zlt_Qlt. unfold Z.pred.
    rewrite inject_Z_plus. change (inject_Z (-1)) with (-1)%Q. lra.
  - apply Z.lt_succ_r. rewrite Zlt_Qlt. unfold Z.succ.
    rewrite inject_Z_plus. change (inject_Z 1) with 1%Q. lra.
Qed.












(** The percentage of some scores, as Python prints them: halfway cases of
    the double product go to the even integer, and the product itself is
    rounded first, both for a score written in decimal and for the exact
    value of the double that stands for it. *)
Example format_percent_samples :
  format_percent (1 # 8) = "12%" /\ format_percent (3 # 8) = "38%" /\
  format_percent 0 = "0%" /\ format_percent 1 = "100%" /\
  format_percent (9 # 10) = "90%" /\ format_percent (7 # 10) = "70%" /\
  format_percent (15 # 1000) = "2%" /\
  format_percent (545 # 1000) = "55%" /\
  format_percent (575 # 1000) = "57%" /\
  format_percent (1080863910568919 # 72057594037927936) = "2%" /\
  format_percent (4908923593833841 # 9007199254740992) = "55%" /\
  format_percent (2589569785738035 # 4503599627370496) = "57%" /\
  format_percent (-1 # 1000) = "-0%".
Proof. vm_compute. repeat split. Qed.

(** * The session of a request *)

Lemma keeps_sessions_ret {A} (a : A) : keeps_sessions (ret a).
Proof. intros db. reflexivity. Qed.

Lemma keeps_sessions_bind {A B} (m : M A) (k : A -> M B) :
  keeps_sessions m -> (forall a, keeps_sessions (k a)) ->
  keeps_sessions (bind m k).
Proof.
  intros Hm Hk db. unfold bind. specialize (Hm db).
  destruct (m db) as [[e|a] db1]; [exact Hm|].
  rewrite Hk. exact Hm.
Qed.

Lemma keeps_sessions_when c (body : M unit) :
  keeps_sessions body -> keeps_sessions (when c body).
Proof. destruct c; [auto|intros _; apply keeps_sessions_ret]. Qed.

Lemma keeps_sessions_if_result o c (body : pydict -> M unit) :
  (forall d, keeps_sessions (body d)) -> keeps_sessions (if_result o c body).
Proof.
  intros Hbody. destruct o as [d|]; simpl.
  - apply keeps_sessions_when, Hbody.
  - apply keeps_sessions_ret.
Qed.

Lemma keeps_sessions_if_result_and {I} o (x : option I) c
    (body : I -> pydict -> M unit) :
  (forall i d, keeps_sessions (body i d)) ->
  keeps_sessions (if_result_and o x c body).
Proof.
  intros Hbody. destruct x as [i|]; simpl.
  - apply keeps_sessions_if_result, Hbody.
  - apply keeps_sessions_ret.
Qed.

Lemma keeps_sessions_record_scan sid md input result :
  keeps_sessions (record_scan sid md input result).
Proof.
  intros db. unfold record_scan.
  destruct (sessions db !! sid); [|reflexivity].
  destruct (reachable db (clock db)); reflexivity.
Qed.

Lemma keeps_sessions_record_phishing_attempt sid source content rsn conf :
  keeps_sessions (record_phishing_attempt sid source content rsn conf).
Proof.
  intros db. unfold record_phishing_attempt.
  destruct (sessions db !! sid); reflexivity.
Qed.

Lemma keeps_sessions_record_chat_turn sid user bot :
  keeps_sessions (record_chat_turn sid user bot).
Proof.
  intros db. unfold record_chat_turn.
  destruct (sessions db !! sid); reflexivity.
Qed.

Lemma keeps_sessions_Image_open file : keeps_sessions (Image_open file).
Proof. intros db. unfold Image_open. destruct (decoded file); reflexivity. Qed.

Lemma keeps_sessions_prepare_image file : keeps_sessions (prepare_image file).
Proof.
  unfold prepare_image. destruct file as [f|].
  - apply keeps_sessions_bind; [apply keeps_sessions_Image_open|].
    intros image. apply keeps_sessions_ret.
  - apply keeps_sessions_ret.
Qed.

Ltac keeps :=
  repeat first
    [ apply keeps_sessions_ret
    | apply keeps_sessions_record_scan
    | apply keeps_sessions_record_phishing_attempt
    | apply keeps_sessions_record_chat_turn
    | apply keeps_sessions_Image_open
    | apply keeps_sessions_prepare_image
    | apply keeps_sessions_when
    | apply keeps_sessions_if_result; intros ?
    | apply keeps_sessions_if_result_and; intros ? ?
    | apply keeps_sessions_bind; [|intros ?] ].

Lemma try_except_sessions {A} sid (rest : M A) db :
  keeps_sessions rest ->
  sessions (try_except (bind (ensure_session sid) (fun _ => rest)) db).2
  = sessions (session_ensured sid db).
Proof.
  intros Hrest. unfold try_except, bind, ensure_session, session_ensured.
  destruct (str_truthy sid); [|reflexivity].
  specialize (Hrest (touch_session sid db)).
  destruct (rest (touch_session sid db)) as [[e|a] db1]; exact Hrest.
Qed.

Lemma session_known_after_ensured sid db db' :
  sid <> "" ->
  sessions db' = sessions (session_ensured sid db) ->
  session_known_after sid db db'.
Proof.
  intros Hid Hsessions. unfold session_known_after. rewrite Hsessions.
  unfold session_ensured.
  destruct sid as [|a rest]; [congruence|]. cbn [str_truthy].
  unfold touch_session. cbn [sessions]. rewrite lookup_insert_eq.
  eexists. split; [reflexivity|].
  destruct (sessions db !! String a rest); cbn; split; (reflexivity || lia).
Qed.

(** X14. After a call with a non-empty session id the session is in the
    store, whatever the handler answers, a response or HTTP 500: it was
    created when the call began, or, if it existed, it still has its
    creation time; and it was last active no earlier than the call. *)
Theorem handlers_leave_session_known workflow db :
  (forall request,
      treq_session_id request <> "" ->
      session_known_after (treq_session_id request) db
        (analyze_text workflow request db).2) /\
  (forall file session_id,
      session_id <> "" ->
      session_known_after session_id db
        (analyze_logo workflow file session_id db).2) /\
  (forall request,
      ureq_session_id request <> "" ->
      session_known_after (ureq_session_id request) db
        (analyze_url workflow request db).2) /\
  (forall text url file session_id,
      session_id <> "" ->
      session_known_after session_id db
        (analyze_all workflow text url file session_id db).2) /\
  (forall message url file session_id,
      session_id <> "" ->
      session_known_after session_id db
        (chat workflow message url file session_id db).2).
Proof.
  split; [|split; [|split; [|split]]].
  - intros request Hid. apply session_known_after_ensured; [exact Hid|].
    apply try_except_sessions.
    unfold Repository.save_text_scan, Repository.save_phishing_attempt. keeps.
  - intros file session_id Hid.
    apply session_known_after_ensured; [exact Hid|].
    apply try_except_sessions.
    unfold Repository.save_logo_scan, Repository.save_phishing_attempt. keeps.
  - intros request Hid. apply session_known_after_ensured; [exact Hid|].
    apply try_except_sessions.
    unfold Repository.save_url_scan, Repository.save_phishing_attempt. keeps.
  - intros text url file session_id Hid.
    apply session_known_after_ensured; [exact Hid|].
    apply try_except_sessions.
    unfold Repository.save_logo_scan, Repository.save_text_scan,
      Repository.save_url_scan, Repository.save_phishing_attempt. keeps.
  - intros message url file session_id Hid.
    apply session_known_after_ensured; [exact Hid|].
    apply try_except_sessions.
    unfold Repository.save_logo_scan, Repository.save_text_scan,
      Repository.save_url_scan, Repository.save_message. keeps.
Qed.

Lemma handlers_leave_session_known_witness :
  treq_session_id scenario_A_request <> "" /\
  sessions scenario_A_run.2 !! "s1" = Some (mkSession 0 0) /\
  clock scenario_A_run.2 = 3 /\
  exists s,
    sessions scenario_A_again.2 !! "s1" = Some s /\
    created_at s = 0 /\
    3 <= last_active_at s.
Proof.
  assert (Hid : treq_session_id scenario_A_request <> "") by discriminate.
  split; [exact Hid|]. split; [vm_compute; reflexivity|].
  split; [vm_compute; reflexivity|].
  destruct (proj1 (handlers_leave_session_known scenario_A_workflow
                     scenario_A_run.2) scenario_A_request Hid)
    as (s & Hs & Hcreated & Hactive).
  exists s. split; [exact Hs|].
  split; [rewrite Hcreated; vm_compute; reflexivity|].
  assert (Hclock : clock scenario_A_run.2 = 3) by (vm_compute; reflexivity).
  rewrite Hclock in Hactive. exact Hactive.
Defined.

(** * No PhishingAttempt without its ScanRecord *)

Lemma alarm_has_scan md source dflt sid content o t
    (lattempts : list PhishingAttempt)
    (keys : list (modality * string * pydict)) :
  lattempts = expected_attempts md source dflt sid content o t ->
  keys = expected_scan md content o true ->
  lattempts <> [] ->
  exists d, keys = [(md, content, d)] /\ flag_raised md d = true /\
            o = Some d.
Proof.
  intros -> -> Hne. unfold expected_attempts in Hne. unfold expected_scan.
  destruct o as [d|]; [|congruence].
  destruct (dict_truthy d) eqn:Hd; [|cbn in Hne; congruence].
  destruct (flag_raised md d) eqn:Hflag; [|cbn in Hne; congruence].
  exists d. split; [reflexivity|]. split; [exact Hflag|reflexivity].
Qed.

(** X15. A single-modality handler never writes a PhishingAttempt without
    the ScanRecord of the same request: whenever a text, logo or url call
    that returns has written a PhishingAttempt, it has written exactly one
    ScanRecord, for the same input, and the result dict stored in it is the
    one whose flag was raised. *)
Theorem single_modality_attempt_has_scan workflow :
  (forall request db resp db',
      analyze_text workflow request db = (Ok200 resp, db') ->
      new_attempts db db' <> [] ->
      exists d,
        map scan_key (new_scans db db') = [(Text, treq_text request, d)] /\
        truthy (dict_get d "is_fraud") = true) /\
  (forall file session_id db resp db',
      analyze_logo workflow file session_id db = (Ok200 resp, db') ->
      new_attempts db db' <> [] ->
      exists d,
        map scan_key (new_scans db db') = [(Logo, filename file, d)] /\
        truthy (dict_get d "is_suspicious") = true) /\
  (forall request db resp db',
      analyze_url workflow request db = (Ok200 resp, db') ->
      new_attempts db db' <> [] ->
      exists d,
        map scan_key (new_scans db db') = [(Url, ureq_url request, d)] /\
        truthy (dict_get d "safe") = false).
Proof.
  split; [|split].
  - intros request db resp db' Hrun Hne.
    destruct (alarm_has_scan _ _ _ _ _ _ _ _ _
                (analyze_text_attempts _ _ _ _ _ Hrun)
                (analyze_text_scans _ _ _ _ _ Hrun) Hne) as (d & Hk & Hf & _).
    exists d. split; [exact Hk|exact Hf].
  - intros file session_id db resp db' Hrun Hne.
    destruct (alarm_has_scan _ _ _ _ _ _ _ _ _
                (analyze_logo_attempts _ _ _ _ _ _ Hrun)
                (analyze_logo_scans _ _ _ _ _ _ Hrun) Hne) as (d & Hk & Hf & _).
    exists d. split; [exact Hk|exact Hf].
  - intros request db resp db' Hrun Hne.
    destruct (alarm_has_scan _ _ _ _ _ _ _ _ _
                (analyze_url_attempts _ _ _ _ _ Hrun)
                (analyze_url_scans _ _ _ _ _ Hrun) Hne) as (d & Hk & Hf & _).
    exists d. split; [exact Hk|]. apply negb_true_iff. exact Hf.
Qed.

Lemma single_modality_attempt_has_scan_witness :
  scenario_A_run
  = (Ok200 (body_or no_response scenario_A_run.1), scenario_A_run.2) /\
  new_attempts empty_db scenario_A_run.2 <> [] /\
  exists d,
    map scan_key (new_scans empty_db scenario_A_run.2)
    = [(Text, "Send me your password", d)] /\
    truthy (dict_get d "is_fraud") = true.
Proof.
  assert (Hrun : scenario_A_run
                 = (Ok200 (body_or no_response scenario_A_run.1),
                    scenario_A_run.2)) by (vm_compute; reflexivity).
  assert (Hne : new_attempts empty_db scenario_A_run.2 <> [])
    by (vm_compute; discriminate).
  split; [exact Hrun|]. split; [exact Hne|].
  exact (proj1 (single_modality_attempt_has_scan scenario_A_workflow)
           scenario_A_request empty_db _ _ Hrun Hne).
Defined.

(** * The models reported by the health endpoint *)

(** X12. The [models_loaded] dict of a health response has exactly the keys
    "logo_agent", "text_agent" and "url_agent"; each holds true exactly when
    that agent has a [model] attribute that is not [None], so an agent
    without the attribute counts as not loaded instead of raising; and
    [database_connected] tells whether the probe of the store succeeded. *)
Theorem health_check_reports_models workflow db :
  let r := health_check workflow db in
  dom (models_loaded r)
  = ({["logo_agent"]} ∪ {["text_agent"]} ∪ {["url_agent"]} : gset string) /\
  (models_loaded r !! "logo_agent" = Some true <->
   model_loaded (logo_agent workflow)) /\
  (models_loaded r !! "text_agent" = Some true <->
   model_loaded (text_agent workflow)) /\
  (models_loaded r !! "url_agent" = Some true <->
   model_loaded (url_agent workflow)) /\
  (database_connected r = true <-> store_reachable db).
Proof.
  cbv zeta. split.
  - unfold health_check. cbn [models_loaded].
    rewrite !dom_insert_L, dom_empty_L. set_solver.
  - split; [|split; [|split]].
    + unfold health_check, model_loaded. cbn [models_loaded].
      rewrite lookup_insert_eq.
      destruct (model (logo_agent workflow)); split; intros [=]; reflexivity.
    + unfold health_check, model_loaded. cbn [models_loaded].
      rewrite lookup_insert_ne by discriminate. rewrite lookup_insert_eq.
      destruct (model (text_agent workflow)); split; intros [=]; reflexivity.
    + unfold health_check, model_loaded. cbn [models_loaded].
      rewrite !lookup_insert_ne by discriminate. rewrite lookup_insert_eq.
      destruct (model (url_agent workflow)); split; intros [=]; reflexivity.
    + apply health_check_database_connected.
Qed.
